(** * Verification of the persistence layer of STP_planner.py

    A shallow embedding of the activity/category persistence code of the
    Streamlit script [STP_planner.py]: the date codec used by
    [load_activities] / [save_activities] ([datetime.strptime] and
    [strftime] with the fixed patterns), the Python dictionaries holding
    activities and categories, the session state with its heap of dict
    objects, and the handlers that add, edit, delete, sort, import and
    save activities. *)

From Stdlib Require Import ZArith Lia String Ascii Bool Sorting.Sorted.
From stdpp Require Import base gmap strings list sorting pretty.

Local Open Scope Z_scope.

(* ------------------------------------------------------------------ *)
(** ** Dates and datetimes (Python [datetime.date], [datetime.datetime]) *)

Record date := mkDate { year : Z; month : Z; day : Z }.

Record datetime := mkDateTime {
  dt_year : Z; dt_month : Z; dt_day : Z;
  hour : Z; minute : Z; second : Z; microsecond : Z }.

Global Instance date_eq_dec : EqDecision date.
Proof. solve_decision. Defined.
Global Instance datetime_eq_dec : EqDecision datetime.
Proof. solve_decision. Defined.

Definition is_leap (y : Z) : bool :=
  (y mod 4 =? 0) && (negb (y mod 100 =? 0) || (y mod 400 =? 0)).

Definition days_in_month (y m : Z) : Z :=
  if m =? 2 then (if is_leap y then 29 else 28)
  else if (m =? 4) || (m =? 6) || (m =? 9) || (m =? 11) then 30
  else 31.

(** The checks of the [date] / [datetime] constructors (MINYEAR = 1,
    MAXYEAR = 9999). *)
Definition valid_ymd (y m d : Z) : bool :=
  (1 <=? y) && (y <=? 9999) && (1 <=? m) && (m <=? 12)
  && (1 <=? d) && (d <=? days_in_month y m).

Definition valid_date (d : date) : bool := valid_ymd (year d) (month d) (day d).

Definition valid_datetime (t : datetime) : bool :=
  valid_ymd (dt_year t) (dt_month t) (dt_day t)
  && (0 <=? hour t) && (hour t <=? 23)
  && (0 <=? minute t) && (minute t <=? 59)
  && (0 <=? second t) && (second t <=? 59)
  && (0 <=? microsecond t) && (microsecond t <=? 999999).

(** Python compares dates lexicographically on (year, month, day). *)
Definition date_compare (a b : date) : comparison :=
  match Z.compare (year a) (year b) with
  | Eq => match Z.compare (month a) (month b) with
          | Eq => Z.compare (day a) (day b)
          | c => c
          end
  | c => c
  end.

Definition date_lt (a b : date) : bool :=
  match date_compare a b with Lt => true | _ => false end.

(** [a <= b] *)
Definition date_le (a b : date) : bool := negb (date_lt b a).

(* ------------------------------------------------------------------ *)
(** ** [strftime] with the fixed patterns *)

Definition digit_char (d : Z) : ascii := ascii_of_nat (Z.to_nat (48 + d)).

(** Four decimal digits. *)
Definition fmt4 (y : Z) : string :=
  String (digit_char (y / 1000))
    (String (digit_char ((y / 100) mod 10))
      (String (digit_char ((y / 10) mod 10))
        (String (digit_char (y mod 10)) EmptyString))).

(** [%m], [%d], [%H], [%M], [%S]: two digits, zero-padded. *)
Definition fmt2 (v : Z) : string :=
  String (digit_char (v / 10)) (String (digit_char (v mod 10)) EmptyString).

(** [%Y]: CPython hands [%Y] to the C library's [strftime]; glibc writes
    the year in decimal without padding, so a year below 1000 gets fewer
    than four digits ([date(500, 1, 1).strftime('%Y')] is ['500'] on
    Linux with CPython before gh-120713, e.g. 3.11; later builds pad to
    four digits themselves). *)
Definition fmt_year (y : Z) : string :=
  if y <? 10 then String (digit_char y) EmptyString
  else if y <? 100 then fmt2 y
  else if y <? 1000 then String (digit_char (y / 100)) (fmt2 (y mod 100))
  else fmt4 y.

(** [d.strftime('%Y-%m-%d')] *)
Definition format_date (d : date) : string :=
  fmt_year (year d) ++ "-" ++ fmt2 (month d) ++ "-" ++ fmt2 (day d).

(** [t.strftime('%Y-%m-%d %H:%M:%S')]: the microseconds are not printed. *)
Definition format_datetime (t : datetime) : string :=
  fmt_year (dt_year t) ++ "-" ++ fmt2 (dt_month t) ++ "-" ++ fmt2 (dt_day t)
  ++ " " ++ fmt2 (hour t) ++ ":" ++ fmt2 (minute t) ++ ":" ++ fmt2 (second t).

(** A [date] formatted with the datetime pattern prints midnight. *)
Definition format_date_as_datetime (d : date) : string :=
  format_date d ++ " 00:00:00".

(* ------------------------------------------------------------------ *)
(** ** [strptime]: the regular expression of [_strptime] and its checks

    [_strptime] compiles the format into a regular expression, takes the
    first match of [re.match] (backtracking order), rejects the input if
    data remains after it ("unconverted data remains"), and builds the
    value with the [datetime] constructor, which validates it.  A regular
    expression is modelled as a list-of-successes parser: the results come
    in the order in which backtracking finds them, so the head of the list
    is the match [re.match] returns. *)

Definition parser (A : Type) : Type := string -> list (A * string).

Global Instance parser_ret : MRet parser := fun A a s => [(a, s)].
Global Instance parser_bind : MBind parser :=
  fun A B k p s => List.flat_map (fun ar => k (fst ar) (snd ar)) (p s).

(** [p|q] *)
Definition p_alt {A} (p q : parser A) : parser A := fun s => p s ++ q s.

Definition digit_val (c : ascii) : option Z :=
  let n := Z.of_nat (nat_of_ascii c) in
  if (48 <=? n) && (n <=? 57) then Some (n - 48) else None.

(** [[lo-hi]] over digits; [\d] is [[0-9]]. *)
Definition p_range (lo hi : Z) : parser Z := fun s =>
  match s with
  | String c r =>
      match digit_val c with
      | Some d => if (lo <=? d) && (d <=? hi) then [(d, r)] else []
      | None => []
      end
  | EmptyString => []
  end.

Definition p_digit : parser Z := p_range 0 9.

(** A literal character of the format. *)
Definition p_lit (c : ascii) : parser unit := fun s =>
  match s with
  | String c' r => if Ascii.eqb c c' then [(tt, r)] else []
  | EmptyString => []
  end.

(** [\s]: the whitespace characters of [str.isspace] in the ASCII range. *)
Definition is_space (c : ascii) : bool :=
  let n := nat_of_ascii c in
  ((9 <=? n) && (n <=? 13))%nat || ((28 <=? n) && (n <=? 32))%nat.

(** [\s+], greedy: the longest run first. *)
Fixpoint p_spaces (s : string) : list (unit * string) :=
  match s with
  | String c r => if is_space c then p_spaces r ++ [(tt, r)] else []
  | EmptyString => []
  end.

(** [%Y]: [\d\d\d\d] *)
Definition re_Y : parser Z :=
  a ← p_digit; b ← p_digit; c ← p_digit; d ← p_digit;
  mret (((a * 10 + b) * 10 + c) * 10 + d).

(** [%m]: [1[0-2]|0[1-9]|[1-9]] *)
Definition re_m : parser Z :=
  p_alt (_ ← p_lit "1"; x ← p_range 0 2; mret (10 + x))
 (p_alt (_ ← p_lit "0"; x ← p_range 1 9; mret x)
        (p_range 1 9)).

(** [%d]: [3[01]|[12]\d|0[1-9]|[1-9]| [1-9]] *)
Definition re_d : parser Z :=
  p_alt (_ ← p_lit "3"; x ← p_range 0 1; mret (30 + x))
 (p_alt (t ← p_range 1 2; x ← p_digit; mret (10 * t + x))
 (p_alt (_ ← p_lit "0"; x ← p_range 1 9; mret x)
 (p_alt (p_range 1 9)
        (_ ← p_lit " "; x ← p_range 1 9; mret x)))).

(** [%H]: [2[0-3]|[0-1]\d|\d] *)
Definition re_H : parser Z :=
  p_alt (_ ← p_lit "2"; x ← p_range 0 3; mret (20 + x))
 (p_alt (t ← p_range 0 1; x ← p_digit; mret (10 * t + x))
        p_digit).

(** [%M]: [[0-5]\d|\d] *)
Definition re_M : parser Z :=
  p_alt (t ← p_range 0 5; x ← p_digit; mret (10 * t + x)) p_digit.

(** [%S]: [6[0-1]|[0-5]\d|\d] *)
Definition re_S : parser Z :=
  p_alt (_ ← p_lit "6"; x ← p_range 0 1; mret (60 + x))
 (p_alt (t ← p_range 0 5; x ← p_digit; mret (10 * t + x))
        p_digit).

(** ['%Y-%m-%d'] *)
Definition re_date : parser (Z * Z * Z) :=
  y ← re_Y; _ ← p_lit "-"; m ← re_m; _ ← p_lit "-"; d ← re_d;
  mret (y, m, d).

(** ['%Y-%m-%d %H:%M:%S']: the blank becomes [\s+]. *)
Definition re_datetime : parser (Z * Z * Z * Z * Z * Z) :=
  y ← re_Y; _ ← p_lit "-"; m ← re_m; _ ← p_lit "-"; d ← re_d;
  _ ← p_spaces; h ← re_H; _ ← p_lit ":"; mi ← re_M; _ ← p_lit ":";
  s ← re_S; mret (y, m, d, h, mi, s).

(** First match, then the "unconverted data remains" check. *)
Definition re_fullmatch {A} (p : parser A) (s : string) : option A :=
  match p s with
  | (a, EmptyString) :: _ => Some a
  | _ => None
  end.

(** [datetime.strptime(s, '%Y-%m-%d').date()]; [None] is the
    [ValueError]. *)
Definition strptime_date (s : string) : option date :=
  match re_fullmatch re_date s with
  | Some (y, m, d) => if valid_ymd y m d then Some (mkDate y m d) else None
  | None => None
  end.

(** [datetime.strptime(s, '%Y-%m-%d %H:%M:%S')]; seconds 60 and 61 pass
    the regular expression and are refused by the constructor. *)
Definition strptime_datetime (s : string) : option datetime :=
  match re_fullmatch re_datetime s with
  | Some (y, m, d, h, mi, sec) =>
      let t := mkDateTime y m d h mi sec 0 in
      if valid_datetime t then Some t else None
  | None => None
  end.

(* ------------------------------------------------------------------ *)
(** ** Python values, dicts and the session state *)

(** The values held by an activity dict: strings (and JSON values read
    from the data file), [date] / [datetime] objects, pandas' missing
    timestamp [NaT], the float [nan] that pandas puts in an empty CSV
    cell, JSON numbers and [None]. *)
Inductive pyval :=
| PStr (s : string)
| PDate (d : date)
| PDateTime (t : datetime)
| PNaT
| PNaN
| PInt (z : Z)
| PNone.

Global Instance pyval_eq_dec : EqDecision pyval.
Proof. solve_decision. Defined.

(** Python's [==] on these values: [nan == nan] is [False]. *)
Definition py_eq (a b : pyval) : bool :=
  match a, b with
  | PStr x, PStr y => bool_decide (x = y)
  | PDate x, PDate y => bool_decide (x = y)
  | PDateTime x, PDateTime y => bool_decide (x = y)
  | PInt x, PInt y => Z.eqb x y
  | PNone, PNone => true
  | _, _ => false
  end.

(** A Python dict with string keys; an activity is such a dict. *)
Abbreviation pydict := (gmap string pyval).

(** The heap of dict objects: [st.session_state.activities] is a list of
    references into it, so that an in-place update ([dict.update],
    item assignment) is seen through every reference. *)
Abbreviation heap := (gmap nat pydict).

(** A new object at a location not in use. *)
Definition alloc (h : heap) (d : pydict) : heap * nat :=
  let l := fresh (dom h) in (<[l := d]> h, l).

Inductive py_exn := KeyError | ValueError | TypeError | AttributeError.

(** The content of [DATA_FILE]: absent, not JSON, or a JSON array of
    objects. *)
Inductive data_file :=
| NoFile
| NotJson
| JsonDoc (recs : list pydict).

(** The content of [CONFIG_FILE] as [load_categories] finds it: absent,
    not JSON, or a JSON object of color strings. *)
Inductive config_file :=
| NoConfig
| ConfigNotJson
| ConfigJson (m : gmap string string).

(** How the file system answers [with open(path, 'w') as f:
    json.dump(...)]: the file opens and takes the text; [open] raises
    ([OSError]: no permission, no directory), leaving the file as it
    was; or the file is opened, so truncated, and a write fails (disk
    full), leaving a truncated text that is not JSON. *)
Inductive io_outcome := IoOk | IoOpenFails | IoWriteFails.

Record session := mkSession {
  s_heap : heap;
  s_activities : list nat;             (** [st.session_state.activities] *)
  s_categories : gmap string string;   (** [st.session_state.categories] *)
  s_data_file : data_file;             (** [DATA_FILE] *)
  s_config_file : config_file;         (** [CONFIG_FILE] *)
  s_data_io : io_outcome;              (** writing [DATA_FILE] *)
  s_config_io : io_outcome             (** writing [CONFIG_FILE] *)
}.

Definition set_heap (h : heap) (st : session) : session :=
  mkSession h (s_activities st) (s_categories st) (s_data_file st) (s_config_file st)
    (s_data_io st) (s_config_io st).
Definition set_activities (a : list nat) (st : session) : session :=
  mkSession (s_heap st) a (s_categories st) (s_data_file st) (s_config_file st)
    (s_data_io st) (s_config_io st).
Definition set_categories (c : gmap string string) (st : session) : session :=
  mkSession (s_heap st) (s_activities st) c (s_data_file st) (s_config_file st)
    (s_data_io st) (s_config_io st).
Definition set_data_file (f : data_file) (st : session) : session :=
  mkSession (s_heap st) (s_activities st) (s_categories st) f (s_config_file st)
    (s_data_io st) (s_config_io st).
Definition set_config_file (f : config_file) (st : session) : session :=
  mkSession (s_heap st) (s_activities st) (s_categories st) (s_data_file st) f
    (s_data_io st) (s_config_io st).

(** What a handler shows: [st.success], [st.error], or an exception that
    escapes the script run. *)
Inductive feedback :=
| Success (msg : string)
| Failure (msg : string)
| Raised (e : py_exn).

(* ------------------------------------------------------------------ *)
(** ** [save_activities] *)

(** [v.strftime('%Y-%m-%d')]: a [str] has no [strftime]
    (AttributeError), [NaT.strftime] raises ValueError. *)
Definition strftime_date (v : pyval) : py_exn + string :=
  match v with
  | PDate d => inr (format_date d)
  | PDateTime t => inr (format_date (mkDate (dt_year t) (dt_month t) (dt_day t)))
  | PNaT => inl ValueError
  | _ => inl AttributeError
  end.

(** [v.strftime('%Y-%m-%d %H:%M:%S')] *)
Definition strftime_datetime (v : pyval) : py_exn + string :=
  match v with
  | PDate d => inr (format_date_as_datetime d)
  | PDateTime t => inr (format_datetime t)
  | PNaT => inl ValueError
  | _ => inl AttributeError
  end.

(** [activity[k].strftime(...)]: [KeyError] when the field is absent. *)
Definition strftime_field (f : pyval -> py_exn + string) (d : pydict) (k : string)
    : py_exn + string :=
  match d !! k with Some v => f v | None => inl KeyError end.

(** The body of the loop of [save_activities] for one activity:
    [activity_copy = activity.copy()], then the three fields of the copy
    are set from the fields of [activity] turned into strings. *)
Definition save_one (h : heap) (l : nat) : heap * (py_exn + nat) :=
  match h !! l with
  | None => (h, inl KeyError)
  | Some activity =>
      let '(h1, c) := alloc h activity in
      match strftime_field strftime_date activity "start_date" with
      | inl e => (h1, inl e)
      | inr sd =>
        let h2 := alter (insert "start_date" (PStr sd)) c h1 in
        match strftime_field strftime_date activity "end_date" with
        | inl e => (h2, inl e)
        | inr ed =>
          let h3 := alter (insert "end_date" (PStr ed)) c h2 in
          match strftime_field strftime_datetime activity "created_at" with
          | inl e => (h3, inl e)
          | inr ca => (alter (insert "created_at" (PStr ca)) c h3, inr c)
          end
        end
      end
  end.

(** [for activity in activities: ... data_to_save.append(activity_copy)] *)
Fixpoint save_loop (h : heap) (ls : list nat) : heap * (py_exn + list nat) :=
  match ls with
  | [] => (h, inr [])
  | l :: ls' =>
      match save_one h l with
      | (h1, inl e) => (h1, inl e)
      | (h1, inr c) =>
          match save_loop h1 ls' with
          | (h2, inl e) => (h2, inl e)
          | (h2, inr cs) => (h2, inr (c :: cs))
          end
      end
  end.

(** [json.dump] of a value: strings, numbers ([nan] is written [NaN],
    [allow_nan] being on) and [None] are written; a [date], a [datetime]
    or [NaT] makes the encoder's [default] raise TypeError. *)
Definition json_value_ok (v : pyval) : bool :=
  match v with
  | PStr _ | PInt _ | PNaN | PNone => true
  | PDate _ | PDateTime _ | PNaT => false
  end.

Definition json_record_ok (d : pydict) : bool :=
  bool_decide (map_Forall (fun _ v => json_value_ok v = true) d).

(** [save_activities(activities)]: the copies are made first; an
    exception there is caught ([st.error], [False]) before the file is
    opened. Then [open(DATA_FILE, 'w')] truncates the file and
    [json.dump(..., indent=2)] writes the text chunk by chunk as its
    (pure Python) encoder produces it: a value it cannot encode raises
    TypeError after the opening bracket is written, so the file is left
    truncated and is no longer JSON; the exception is caught and [False]
    returned. *)
Definition save_activities (st : session) : session * bool :=
  match save_loop (s_heap st) (s_activities st) with
  | (h, inl _) => (set_heap h st, false)
  | (h, inr cs) =>
      let data_to_save := omap (fun c => h !! c) cs in
      match s_data_io st with
      | IoOpenFails => (set_heap h st, false)
      | IoWriteFails => (set_data_file NotJson (set_heap h st), false)
      | IoOk =>
          if forallb json_record_ok data_to_save
          then (set_data_file (JsonDoc data_to_save) (set_heap h st), true)
          else (set_data_file NotJson (set_heap h st), false)
      end
  end.

(* ------------------------------------------------------------------ *)
(** ** Categories *)

(** [save_categories(categories)]: a dict of strings always encodes, so
    only the file system can make it fail; the error is shown
    ([st.error]) and [False] returned. *)
Definition save_categories (st : session) : session * bool :=
  match s_config_io st with
  | IoOk => (set_config_file (ConfigJson (s_categories st)) st, true)
  | IoOpenFails => (st, false)
  | IoWriteFails => (set_config_file ConfigNotJson st, false)
  end.

(** The delete button of a category ([del_cat_<name>]); the result of
    [save_categories] is not looked at, its own error message is what is
    shown. *)
Definition delete_category (cat_name : string) (st : session) : session * feedback :=
  if bool_decide (1 < size (s_categories st))%nat then
    match s_categories st !! cat_name with
    | Some _ =>
        let '(st2, ok) := save_categories
                            (set_categories (delete cat_name (s_categories st)) st) in
        (st2, if ok then Success "" else Failure "Error saving categories config")
    | None => (st, Raised KeyError)
    end
  else (st, Failure "Must have at least one category!").

(** [get_color_for_activity(category, categories_dict)] *)
Definition get_color_for_activity (category : string)
    (categories_dict : gmap string string) : string :=
  match categories_dict !! category with
  | Some c => c
  | None => "#6C5CE7"
  end.

(* ------------------------------------------------------------------ *)
(** ** Activities: add, edit, sort *)

(** The dict built by the "Add Activity" form. *)
Definition new_activity_dict (new_id activity_name : string) (start_date end_date : date)
    (activity_category priority description : string) (now : datetime) : pydict :=
  <["id" := PStr new_id]> (<["name" := PStr activity_name]>
  (<["start_date" := PDate start_date]> (<["end_date" := PDate end_date]>
  (<["category" := PStr activity_category]> (<["priority" := PStr priority]>
  (<["description" := PStr description]> (<["created_at" := PDateTime now]> ∅))))))).


(** [for j, act in enumerate(activities): if act['id'] == activity['id']:
    ... break]: the first activity whose id is [==] to [target]. *)
Fixpoint find_by_id (h : heap) (target : pyval) (ls : list nat) : py_exn + option nat :=
  match ls with
  | [] => inr None
  | l :: ls' =>
      match h !! l ≫= lookup "id" with
      | Some v => if py_eq v target then inr (Some l) else find_by_id h target ls'
      | None => inl KeyError
      end
  end.

(** [activities[j].update({...})]: the six fields of the edit form. *)
Definition edit_fields (edit_name : string) (edit_start edit_end : date)
    (edit_category edit_priority edit_description : string) (d : pydict) : pydict :=
  <["description" := PStr edit_description]> (<["priority" := PStr edit_priority]>
  (<["category" := PStr edit_category]> (<["end_date" := PDate edit_end]>
  (<["start_date" := PDate edit_start]> (<["name" := PStr edit_name]> d))))).

(** "Save Changes" of the edit form of the activity object [activity]. *)
Definition save_edit (activity : nat) (edit_name : string) (edit_start edit_end : date)
    (edit_category edit_priority edit_description : string) (st : session)
    : session * feedback :=
  if bool_decide (edit_name <> "") && date_le edit_start edit_end then
    match s_heap st !! activity ≫= lookup "id" with
    | None => (st, Raised KeyError)
    | Some target =>
        match find_by_id (s_heap st) target (s_activities st) with
        | inl e => (st, Raised e)
        | inr found =>
            let h := match found with
                     | Some j => alter (edit_fields edit_name edit_start edit_end
                                          edit_category edit_priority edit_description)
                                       j (s_heap st)
                     | None => s_heap st
                     end in
            let '(st2, ok) := save_activities (set_heap h st) in
            (st2, if ok then Success "Activity updated and saved!"
                  else Failure "Activity updated but failed to save")
        end
    end
  else (st, Failure "Please enter a valid activity name and ensure start date is before end date.").

(** [x['start_date']] of the activity object [l]. *)
Definition start_of (h : heap) (l : nat) : option pyval := h !! l ≫= lookup "start_date".

(** Insertion of [x] before the first element whose key is not smaller. *)
Fixpoint insert_by_start (x : nat * date) (xs : list (nat * date)) : list (nat * date) :=
  match xs with
  | [] => [x]
  | y :: ys => if date_lt (snd y) (snd x) then y :: insert_by_start x ys else x :: y :: ys
  end.

(** A stable sort on the key, as Python's [sorted] is. *)
Fixpoint sort_by_start (xs : list (nat * date)) : list (nat * date) :=
  match xs with
  | [] => []
  | x :: xs' => insert_by_start x (sort_by_start xs')
  end.

(** [sorted(activities, key=lambda x: x['start_date'])] on a collection
    whose start dates are [date]s; a collection with another kind of key
    (a missing field, or pandas' [NaT] after an import) is outside this
    model: [None]. *)
Definition sorted_activities (h : heap) (acts : list nat) : option (list nat) :=
  keyed ← mapM (fun l => match start_of h l with
                         | Some (PDate d) => Some (l, d)
                         | _ => None
                         end) acts;
  mret (fst <$> sort_by_start keyed).

(* ------------------------------------------------------------------ *)
(** ** [load_activities] *)

(** [activity[k] = datetime.strptime(activity[k], fmt)]: [KeyError] if the
    field is absent, [TypeError] if it is not a string, [ValueError] if it
    does not parse. *)
Definition strptime_field (conv : string -> option pyval) (k : string) (d : pydict)
    : py_exn + pydict :=
  match d !! k with
  | None => inl KeyError
  | Some (PStr s) => match conv s with Some v => inr (<[k := v]> d) | None => inl ValueError end
  | Some _ => inl TypeError
  end.

Definition parse_date_field (s : string) : option pyval := PDate <$> strptime_date s.
Definition parse_datetime_field (s : string) : option pyval := PDateTime <$> strptime_datetime s.

(** The body of [for activity in data]. *)
Definition load_one (d : pydict) : py_exn + pydict :=
  match strptime_field parse_date_field "start_date" d with
  | inl e => inl e
  | inr d1 =>
      match strptime_field parse_date_field "end_date" d1 with
      | inl e => inl e
      | inr d2 => strptime_field parse_datetime_field "created_at" d2
      end
  end.

Fixpoint load_loop (ds : list pydict) : py_exn + list pydict :=
  match ds with
  | [] => inr []
  | d :: ds' =>
      match load_one d with
      | inl e => inl e
      | inr d' => match load_loop ds' with inl e => inl e | inr r => inr (d' :: r) end
      end
  end.

Inductive load_result :=
| Loaded (error_shown : bool) (data : list pydict)
| LoadRaised (e : py_exn).

(** [load_activities()]: the [try] covers the whole loop; [KeyError] and
    [ValueError] (of which [JSONDecodeError] is one) are caught, shown
    with [st.error], and the empty list is returned; a [TypeError]
    escapes. *)
Definition load_activities (f : data_file) : load_result :=
  match f with
  | NoFile => Loaded false []
  | NotJson => Loaded true []
  | JsonDoc ds =>
      match load_loop ds with
      | inr ds' => Loaded false ds'
      | inl TypeError => LoadRaised TypeError
      | inl _ => Loaded true []
      end
  end.

(* ------------------------------------------------------------------ *)
(** ** CSV import *)

(** A DataFrame as [pd.read_csv] returns it: its columns, and its rows as
    dicts ([to_dict('records')]); every row has every column, an empty
    cell being [nan]. pandas' CSV reader itself is not modelled: the
    import starts from its result. *)
Record frame := mkFrame { f_columns : list string; f_rows : list pydict }.

Section CsvImport.

(** [pd.to_datetime] on a column (a Series): the converted column, or
    [None] when it raises. *)
Variable to_datetime : list pyval -> option (list pyval).
(** [datetime.now()] *)
Variable now : datetime.
(** The successive values of [str(uuid.uuid4())]. *)
Variable new_id : nat -> string.

(** [import_df[k]]: [KeyError] ([None]) when [k] is not a column. *)
Definition column (k : string) (df : frame) : option (list pyval) :=
  if bool_decide (k ∈ f_columns df) then mapM (lookup k) (f_rows df) else None.

(** [.dt.date] *)
Definition dt_date (v : pyval) : pyval :=
  match v with
  | PDateTime t => PDate (mkDate (dt_year t) (dt_month t) (dt_day t))
  | _ => v
  end.

(** [import_df[k] = pd.to_datetime(import_df[k])] (with [.dt.date] when
    [to_date]): the whole column is converted at once, then stored back
    row by row. *)
Definition convert_column (to_date : bool) (k : string) (df : frame) : option frame :=
  col ← column k df;
  col' ← to_datetime col;
  Some (mkFrame (f_columns df)
          (zip_with (fun r v => <[k := if to_date then dt_date v else v]> r) (f_rows df) col')).

(** [import_df['created_at'] = pd.to_datetime(import_df.get('created_at',
    datetime.now()))]: without the column, the scalar [now] is given to
    every row. *)
Definition convert_created_at (df : frame) : option frame :=
  if bool_decide ("created_at" ∈ f_columns df) then convert_column false "created_at" df
  else Some (mkFrame (f_columns df ++ ["created_at"])
                     (insert "created_at" (PDateTime now) <$> f_rows df)).

(** [if 'id' not in import_df.columns: import_df['id'] = [uuid...]] *)
Definition add_ids (df : frame) : frame :=
  if bool_decide ("id" ∈ f_columns df) then df
  else mkFrame (f_columns df ++ ["id"])
               (imap (fun i r => <["id" := PStr (new_id i)]> r) (f_rows df)).

(** The body of the [try] of the CSV import up to
    [imported_activities = import_df.to_dict('records')], from the result
    of [pd.read_csv] ([None] when it raises); [None] is the exception
    caught by [except Exception] ("Error importing CSV"). *)
Definition import_csv (read : option frame) : option (list pydict) :=
  df0 ← read;
  df1 ← convert_column true "start_date" df0;
  df2 ← convert_column true "end_date" df1;
  df3 ← convert_created_at df2;
  Some (f_rows (add_ids df3)).

End CsvImport.

(** [acts.extend(recs)]: each dict becomes an object of the heap, whose
    reference is appended. *)
Fixpoint extend_activities (h : heap) (acts : list nat) (recs : list pydict)
    : heap * list nat :=
  match recs with
  | [] => (h, acts)
  | r :: rs => let '(h1, l) := alloc h r in extend_activities h1 (acts ++ [l]) rs
  end.



(* ------------------------------------------------------------------ *)
(** ** What [save_activities] writes for one activity *)

(** The copy of [d] whose three date fields are turned into strings; the
    record that [save_activities] writes to the file for [d]. *)
Definition serialize_activity (d : pydict) : py_exn + pydict :=
  match strftime_field strftime_date d "start_date" with
  | inl e => inl e
  | inr sd =>
      match strftime_field strftime_date d "end_date" with
      | inl e => inl e
      | inr ed =>
          match strftime_field strftime_datetime d "created_at" with
          | inl e => inl e
          | inr ca => inr (<["created_at" := PStr ca]> (<["end_date" := PStr ed]>
                            (<["start_date" := PStr sd]> d)))
          end
      end
  end.

(** The old heap's objects are still there, unchanged. *)
Definition heap_extends (h h' : heap) : Prop :=
  forall l x, h !! l = Some x -> h' !! l = Some x.

(* ------------------------------------------------------------------ *)
(** ** Sample data *)

(** An activity as [add_activity] stores it. *)
Definition sample_activity : pydict :=
  new_activity_dict "a1" "Gym" (mkDate 2024 1 5) (mkDate 2024 1 6) "Work" "High" ""
    (mkDateTime 2024 1 1 9 0 0 250000).

Definition sample_session : session :=
  mkSession {[ 0%nat := sample_activity ]} [0%nat]
    (<["Work" := "#FF6B6B"]> ∅) NoFile NoConfig IoOk IoOk.

(** An activity as it is read back from [DATA_FILE]. *)
Definition json_record (start_date end_date created_at : string) : pydict :=
  <["id" := PStr "a1"]> (<["name" := PStr "Gym"]>
  (<["start_date" := PStr start_date]> (<["end_date" := PStr end_date]>
  (<["category" := PStr "Work"]> (<["priority" := PStr "High"]>
  (<["description" := PStr ""]> (<["created_at" := PStr created_at]> ∅))))))).

(** A record of the data file, and the same record after loading. *)
Definition json_good : pydict := json_record "2024-01-05" "2024-01-06" "2024-01-01 09:00:00".

Definition loaded_good : pydict :=
  <["created_at" := PDateTime (mkDateTime 2024 1 1 9 0 0 0)]>
  (<["end_date" := PDate (mkDate 2024 1 6)]>
  (<["start_date" := PDate (mkDate 2024 1 5)]> json_good)).

(** A record whose month 13 does not parse. *)
Definition json_bad_start : pydict := json_record "2024-13-01" "2024-01-06" "2024-01-01 09:00:00".

(** A record whose [created_at] does not parse. *)
Definition json_bad_created : pydict := json_record "2024-01-05" "2024-01-06" "yesterday".

(** The three activities of the sort example: ids 1, 2, 3 starting on
    2024-01-05, 2024-01-01 and 2024-01-01, stored in that order. *)
Definition sort_sample_heap : heap :=
  <[1%nat := new_activity_dict "1" "A" (mkDate 2024 1 5) (mkDate 2024 1 9) "Work" "High" ""
               (mkDateTime 2024 1 1 9 0 0 0)]>
  (<[2%nat := new_activity_dict "2" "B" (mkDate 2024 1 1) (mkDate 2024 1 2) "Work" "Low" ""
               (mkDateTime 2024 1 1 9 0 0 0)]>
  (<[3%nat := new_activity_dict "3" "C" (mkDate 2024 1 1) (mkDate 2024 1 3) "Work" "Medium" ""
               (mkDateTime 2024 1 1 9 0 0 0)]> ∅)).

(** The ids of a list of activity objects. *)
Definition ids_of (h : heap) (ls : list nat) : list (option pyval) :=
  (fun l => h !! l ≫= lookup "id") <$> ls.

(** A sample of [pd.to_datetime] on a column of strings (pandas 2.x),
    exact on the columns it classifies. The cells taken for a missing
    value: [nan], [None], [NaT] and the strings of [nat_strings]. *)
Definition nat_strings : list string := [""; "NaT"; "nat"; "NAT"; "nan"; "NaN"; "NAN"].

Definition null_cell (v : pyval) : bool :=
  match v with
  | PNaN | PNone | PNaT => true
  | PStr s => bool_decide (s ∈ nat_strings)
  | _ => false
  end.

(** [tslib.first_non_null] also passes over "now" and "today". *)
Definition skipped_cell (v : pyval) : bool :=
  null_cell v || bool_decide (v = PStr "now") || bool_decide (v = PStr "today").

Fixpoint first_non_null (col : list pyval) : option pyval :=
  match col with
  | [] => None
  | v :: vs => if skipped_cell v then first_non_null vs else Some v
  end.

(** A cell written 'YYYY-MM-DD', zero-padded, of a day that a nanosecond
    timestamp holds (years 1678 to 2261): from such a first cell pandas
    guesses the format ['%Y-%m-%d'], and it reads such a cell as
    midnight of that day. *)
Definition iso_date_cell (v : pyval) : option datetime :=
  match v with
  | PStr s =>
      match strptime_date s with
      | Some d =>
          if bool_decide (format_date d = s) && (1678 <=? year d) && (year d <=? 2261)
          then Some (mkDateTime (year d) (month d) (day d) 0 0 0 0)
          else None
      | None => None
      end
  | _ => None
  end.

Fixpoint has_digit (s : string) : bool :=
  match s with
  | EmptyString => false
  | String c r => match digit_val c with Some _ => true | None => has_digit r end
  end.

(** What [pd.to_datetime] does with a column, where the sample knows it. *)
Inductive conv_result :=
| Converted (vs : list pyval)
| Raises
| Unmodelled.

(** When the first cell that is not missing is such an ISO date, the
    format ['%Y-%m-%d'] is applied to the whole column: a missing cell
    gives [NaT], an ISO date its midnight, and a string with no digit
    that is not missing (nor "now" or "today") does not match the format
    and raises ValueError. Other columns are not classified. *)
Definition to_datetime_model (col : list pyval) : conv_result :=
  match first_non_null col ≫= iso_date_cell with
  | Some _ =>
      match mapM (fun v => if null_cell v then Some PNaT else PDateTime <$> iso_date_cell v)
                 col with
      | Some vs => Converted vs
      | None =>
          if existsb (fun v => match v with
                               | PStr s => negb (skipped_cell v) && negb (has_digit s)
                               | _ => false
                               end) col
          then Raises else Unmodelled
      end
  | None => Unmodelled
  end.

(** The sample as a converter: [None] when it raises (and on the
    columns it does not classify, which the examples do not use). *)
Definition to_datetime_sample (col : list pyval) : option (list pyval) :=
  match to_datetime_model col with
  | Converted vs => Some vs
  | _ => None
  end.

Definition import_now : datetime := mkDateTime 2024 6 1 12 0 0 0.

Definition import_uuid (i : nat) : string := "uuid-" +:+ String (ascii_of_nat (48 + i)) "".

(** A row of a frame, from its cells in the order of the columns. *)
Definition frame_row (cols : list string) (cells : list pyval) : pydict :=
  list_to_map (zip cols cells).

Definition csv_columns : list string :=
  ["name"; "start_date"; "end_date"; "category"; "priority"; "description"].

(** [pd.read_csv] of a CSV with an [id] column whose cell is empty:
    the id is [nan]. *)
Definition frame_nan_id : frame :=
  mkFrame (csv_columns ++ ["id"])
    [frame_row (csv_columns ++ ["id"])
       [PStr "Swim"; PStr "2024-03-01"; PStr "2024-03-02"; PStr "Work"; PStr "High";
        PStr "pool"; PNaN]].

(** [sample_session] where [DATA_FILE] cannot be opened for writing. *)
Definition readonly_session : session :=
  mkSession {[ 0%nat := sample_activity ]} [0%nat]
    (<["Work" := "#FF6B6B"]> ∅) NoFile NoConfig IoOpenFails IoOk.

(** The session with no activity. *)
Definition empty_session : session :=
  mkSession ∅ [] (<["Work" := "#FF6B6B"]> ∅) NoFile NoConfig IoOk IoOk.

(** The session after importing [frame_nan_id] into an empty collection. *)
Definition nan_id_session : session :=
  let recs := default [] (import_csv to_datetime_sample import_now import_uuid
                            (Some frame_nan_id)) in
  let '(h, acts) := extend_activities ∅ [] recs in
  mkSession h acts (<["Work" := "#FF6B6B"]> ∅) NoFile NoConfig IoOk IoOk.

(** [pd.read_csv] of the CSV of the import example: three rows, the
    second with an empty [end_date], read as [nan]. *)
Definition frame_three_rows : frame :=
  mkFrame csv_columns
    [frame_row csv_columns [PStr "A"; PStr "2024-01-01"; PStr "2024-01-02"; PStr "Work";
                            PStr "High"; PStr "a"];
     frame_row csv_columns [PStr "B"; PStr "2024-01-03"; PNaN; PStr "Work";
                            PStr "Low"; PStr "b"];
     frame_row csv_columns [PStr "C"; PStr "2024-01-05"; PStr "2024-01-06"; PStr "Work";
                            PStr "Medium"; PStr "c"]].


(** The records imported from [frame_three_rows]. *)
Definition three_rows_import : list pydict :=
  default [] (import_csv to_datetime_sample import_now import_uuid (Some frame_three_rows)).

(** The session after importing [frame_three_rows] into an empty
    collection: its second activity has [end_date = NaT]. *)
Definition nat_end_session : session :=
  let '(h, acts) := extend_activities ∅ [] three_rows_import in
  mkSession h acts (<["Work" := "#FF6B6B"]> ∅) NoFile NoConfig IoOk IoOk.

(** "Save Changes" on the imported activity of [nan_id_session], with a
    new name and end date. *)
Definition nan_id_edit : session * feedback :=
  save_edit 0%nat "Swim laps" (mkDate 2024 3 1) (mkDate 2024 3 4) "Work" "Low" "pool"
    nan_id_session.

(* ------------------------------------------------------------------ *)
(** ** Further handlers of the script *)

(** The "Reload Data" button: [st.session_state.activities =
    load_activities()]; the loaded dicts are new objects. An exception
    that escapes [load_activities] ends the script run. *)
Definition reload_data (st : session) : session + py_exn :=
  match load_activities (s_data_file st) with
  | Loaded _ ds =>
      let '(h, acts) := extend_activities (s_heap st) [] ds in
      inl (set_activities acts (set_heap h st))
  | LoadRaised e => inr e
  end.

(** The "Clear All Activities" button: [st.session_state.activities = []]
    then [save_activities] (its result is not looked at). *)
Definition clear_all (st : session) : session :=
  fst (save_activities (set_activities [] st)).

(** [[act for act in activities if act['id'] != activity['id']]], with
    [target = activity['id']]; [!=] is the negation of [==] on these
    values (so [nan != nan]). *)
Fixpoint filter_ne_id (h : heap) (target : pyval) (ls : list nat) : py_exn + list nat :=
  match ls with
  | [] => inr []
  | l :: ls' =>
      match h !! l ≫= lookup "id" with
      | None => inl KeyError
      | Some v =>
          match filter_ne_id h target ls' with
          | inl e => inl e
          | inr r => inr (if negb (py_eq v target) then l :: r else r)
          end
      end
  end.

(** The delete button of the activity object [activity]. *)
Definition delete_activity (activity : nat) (st : session) : session * feedback :=
  match s_heap st !! activity ≫= lookup "id" with
  | None => (st, Raised KeyError)
  | Some target =>
      match filter_ne_id (s_heap st) target (s_activities st) with
      | inl e => (st, Raised e)
      | inr acts =>
          let '(st2, ok) := save_activities (set_activities acts st) in
          (st2, if ok then Success "Activity deleted and saved!"
                else Failure "Activity deleted but failed to save")
      end
  end.

(** The "Add Category" form; when [save_categories] fails it shows its
    own error, and the form adds "Failed to save category". *)
Definition add_category (new_cat_name new_cat_color : string) (st : session)
    : session * feedback :=
  if bool_decide (new_cat_name <> "")
     && negb (bool_decide (is_Some (s_categories st !! new_cat_name))) then
    let '(st1, ok) :=
      save_categories
        (set_categories (<[new_cat_name := new_cat_color]> (s_categories st)) st) in
    (st1, if ok then Success ("Added category '" +:+ new_cat_name +:+ "'!")
          else Failure "Failed to save category")
  else if bool_decide (is_Some (s_categories st !! new_cat_name)) then
    (st, Failure "Category already exists!")
  else (st, Failure "Please enter a category name").

(** The color picker of the category [cat_name] (the loop over
    [categories.items()] only shows names that are keys; for another name
    nothing happens). Nothing is shown unless [save_categories] fails. *)
Definition recolor_category (cat_name new_color : string) (st : session)
    : session * feedback :=
  match s_categories st !! cat_name with
  | Some cat_color =>
      if bool_decide (new_color <> cat_color) then
        let '(st1, ok) :=
          save_categories (set_categories (<[cat_name := new_color]> (s_categories st)) st) in
        (st1, if ok then Success "" else Failure "Error saving categories config")
      else (st, Success "")
  | None => (st, Success "")
  end.

Definition default_categories : gmap string string :=
  list_to_map [("Work", "#FF6B6B"); ("Personal", "#4ECDC4"); ("Project", "#45B7D1");
               ("Meeting", "#FFA07A"); ("Travel", "#98D8C8"); ("Other", "#6C5CE7")].

(** [load_categories()]: the categories, and whether an error is shown. *)
Definition load_categories (f : config_file) : gmap string string * bool :=
  match f with
  | NoConfig => (default_categories, false)
  | ConfigNotJson => (default_categories, true)
  | ConfigJson m => (m, false)
  end.

(** The category handlers of the sidebar, as a user triggers them. *)
Inductive category_op :=
| AddCategory (name color : string)
| Recolor (name color : string)
| DeleteCategory (name : string).

Definition run_category_op (st : session) (o : category_op) : session * feedback :=
  match o with
  | AddCategory n c => add_category n c st
  | Recolor n c => recolor_category n c st
  | DeleteCategory n => delete_category n st
  end.

(** A sequence of them, one script run after another. *)
Definition run_category_ops (st : session) (ops : list category_op) : session :=
  foldl (fun st o => fst (run_category_op st o)) st ops.

(** Python's [list.index] on a list of strings: [None] is the
    [ValueError] of a value that is not in the list. *)
Fixpoint list_index (xs : list string) (x : pyval) : option nat :=
  match xs with
  | [] => None
  | y :: ys => if py_eq (PStr y) x then Some 0%nat else S <$> list_index ys x
  end.

(** [["High", "Medium", "Low"].index(activity['priority'])], the default
    of the priority box of the edit form. *)
Definition edit_priority_index (activity : pydict) : py_exn + nat :=
  match activity !! "priority" with
  | None => inl KeyError
  | Some p =>
      match list_index ["High"; "Medium"; "Low"] p with
      | Some i => inr i
      | None => inl ValueError
      end
  end.

(** [date.max] *)
Definition date_max : date := mkDate 9999 12 31.

(** [current_date + timedelta(days=1)] on a valid date: the next day, or
    OverflowError ([None]) past [date.max]. *)
Definition next_day (d : date) : option date :=
  if day d <? days_in_month (year d) (month d) then Some (mkDate (year d) (month d) (day d + 1))
  else if month d <? 12 then Some (mkDate (year d) (month d + 1) 1)
  else if year d <? 9999 then Some (mkDate (year d + 1) 1 1)
  else None.

(** How the [while] loop of the calendar view ends: normally with the
    dates it appended, by OverflowError, or (in the model only) out of
    fuel. *)
Inductive loop_result := LoopDone (ds : list date) | LoopOverflow | LoopOutOfFuel.

(** The calendar view's loop for one activity whose two dates are date
    objects: [while current_date <= activity['end_date']: calendar_data.append(...);
    current_date += timedelta(days=1)]; the list holds the [date] field of
    each row appended. *)
Fixpoint calendar_loop (fuel : nat) (current_date end_date : date) : loop_result :=
  match fuel with
  | O => LoopOutOfFuel
  | S fuel' =>
      if date_le current_date end_date then
        match next_day current_date with
        | Some nx =>
            match calendar_loop fuel' nx end_date with
            | LoopDone ds => LoopDone (current_date :: ds)
            | r => r
            end
        | None => LoopOverflow
        end
      else LoopDone []
  end.

(** A number that grows with the date, used to bound the iterations. *)
Definition date_key (d : date) : Z := 512 * year d + 32 * month d + day d.

(** The loop from [activity['start_date']] on, with fuel for every
    iteration it can make. *)
Definition calendar_dates (start_date end_date : date) : loop_result :=
  calendar_loop (Z.to_nat (date_key end_date - date_key start_date) + 2) start_date end_date.

(* ------------------------------------------------------------------ *)
(** ** Notions used in the statements *)

(** Whether a string starts with a digit. *)
Definition digit_start (s : string) : bool :=
  match s with
  | String c _ => match digit_val c with Some _ => true | None => false end
  | EmptyString => false
  end.

(** Each two-digit field: the first match reads the whole field; every
    later alternative stops inside it, before a digit. *)
Definition first_match_then_digits {A} (p : parser A) (s : string) (v : A)
    (rest : string) : Prop :=
  exists junk, p s = (v, rest) :: junk
               /\ Forall (fun ar => digit_start (snd ar) = true) junk.

(** [t] with its microseconds dropped. *)
Definition truncate_to_seconds (t : datetime) : datetime :=
  mkDateTime (dt_year t) (dt_month t) (dt_day t) (hour t) (minute t) (second t) 0.

Definition start_le (x y : nat * date) : Prop := date_le (snd x) (snd y) = true.

(** The start-date order on activity objects. *)
Definition start_before (h : heap) (l1 l2 : nat) : Prop :=
  exists d1 d2, start_of h l1 = Some (PDate d1) /\ start_of h l2 = Some (PDate d2)
                /\ date_le d1 d2 = true.

(** A record as the app keeps it and can write: date objects for the two
    dates and a datetime object for [created_at], all of them valid with
    a four-digit year, and values [json.dump] encodes in every other
    field. *)
Definition well_formed_activity (a : pydict) : Prop :=
  exists sd ed t, a !! "start_date" = Some (PDate sd) /\ a !! "end_date" = Some (PDate ed) /\
                  a !! "created_at" = Some (PDateTime t) /\
                  valid_date sd = true /\ valid_date ed = true /\ valid_datetime t = true /\
                  1000 <= year sd /\ 1000 <= year ed /\ 1000 <= dt_year t /\
                  map_Forall (fun k v => k <> "start_date" -> k <> "end_date" ->
                                         k <> "created_at" -> json_value_ok v = true) a.

(** The record [load_activities] reads back for [a]: [a] with the
    microseconds of [created_at] dropped. *)
Definition reloaded_activity (a : pydict) : pydict :=
  match a !! "created_at" with
  | Some (PDateTime t) => <["created_at" := PDateTime (truncate_to_seconds t)]> a
  | _ => a
  end.

(** Whether the activity object [l] has an id [==] to [v]. *)
Definition same_id (h : heap) (v : pyval) (l : nat) : bool :=
  match h !! l ≫= lookup "id" with
  | Some v' => py_eq v' v
  | None => false
  end.

(* ================================================================== *)
(** * Proofs *)

Example strptime_date_ex : strptime_date "2024-02-29" = Some (mkDate 2024 2 29).
Proof. reflexivity. Qed.
Example strptime_date_ex2 : strptime_date "2023-02-29" = None.
Proof. reflexivity. Qed.
Example strptime_date_ex3 : strptime_date "2024-1-5" = Some (mkDate 2024 1 5).
Proof. reflexivity. Qed.
Example strptime_datetime_ex :
  strptime_datetime "2024-01-05 13:04:59" = Some (mkDateTime 2024 1 5 13 4 59 0).
Proof. reflexivity. Qed.

(* ------------------------------------------------------------------ *)
(** ** Facts about the codec *)

Ltac z_enum v :=
  match goal with
  | H : ?lo <= v <= ?hi |- _ =>
      first
        [ exfalso; lia
        | let lo' := eval vm_compute in (lo + 1) in
          destruct (Z.eq_dec v lo) as [-> | Hne];
          [ clear H
          | assert (lo' <= v <= hi) by lia; clear H Hne; z_enum v ] ]
  end.


Lemma string_app_nil_r (s : string) : (s ++ "")%string = s.
Proof. induction s as [|c s IH]; [done|]. exact (f_equal (String c) IH). Qed.

Lemma digit_val_char (d : Z) : 0 <= d <= 9 -> digit_val (digit_char d) = Some d.
Proof. intros H. z_enum d; reflexivity. Qed.

Lemma bind_cons {A B} (p : parser A) (k : A -> parser B) s a r junk :
  p s = (a, r) :: junk ->
  (p ≫= k) s = k a r ++ List.flat_map (fun ar => k (fst ar) (snd ar)) junk.
Proof. intros Hp. unfold mbind, parser_bind. by rewrite Hp. Qed.

Lemma bind_first {A B} (p : parser A) (k : A -> parser B) s a r junk :
  p s = (a, r) :: junk ->
  Forall (fun ar => k (fst ar) (snd ar) = []) junk ->
  (p ≫= k) s = k a r.
Proof.
  intros Hp Hj. rewrite (bind_cons _ _ _ _ _ _ Hp). clear Hp.
  induction Hj as [|x junk' Hx _ IH]; simpl; [by rewrite app_nil_r|].
  rewrite Hx. exact IH.
Qed.

(** A separator that is not a digit refuses a string starting with one. *)
Lemma lit_digit_start {B} (c : ascii) (k : unit -> parser B) (r : string) :
  digit_val c = None -> digit_start r = true -> (p_lit c ≫= k) r = [].
Proof.
  intros Hc Hr. destruct r as [|c' r]; [done|]. simpl in Hr.
  unfold mbind, parser_bind; simpl.
  destruct (Ascii.eqb_spec c c') as [<-|]; [by rewrite Hc in Hr | done].
Qed.

Lemma spaces_digit_start {B} (k : unit -> parser B) (r : string) :
  digit_start r = true -> (p_spaces ≫= k) r = [].
Proof.
  intros Hr. destruct r as [|c r]; [done|]. simpl in Hr.
  unfold mbind, parser_bind; simpl.
  assert (Hs : is_space c = false)
    by (destruct c as [[] [] [] [] [] [] [] []]; vm_compute in Hr |- *;
        congruence).
  by rewrite Hs.
Qed.

Lemma append_String (c : ascii) (s r : string) :
  (String c s ++ r)%string = String c (s ++ r)%string.
Proof. reflexivity. Qed.

Lemma p_range_char (lo hi d : Z) (r : string) :
  0 <= d <= 9 ->
  p_range lo hi (String (digit_char d) r)
  = if (lo <=? d) && (d <=? hi) then [(d, r)] else [].
Proof. intros Hd. unfold p_range. by rewrite digit_val_char. Qed.

Lemma p_digit_char (d : Z) (r : string) :
  0 <= d <= 9 -> p_digit (String (digit_char d) r) = [(d, r)].
Proof.
  intros Hd. unfold p_digit. rewrite p_range_char by done.
  by rewrite (proj2 (Z.leb_le 0 d)), (proj2 (Z.leb_le d 9)) by lia.
Qed.

Lemma bind_single {A B} (p : parser A) (k : A -> parser B) s a r :
  p s = [(a, r)] -> (p ≫= k) s = k a r.
Proof. intros Hp. by apply (bind_first _ _ _ _ _ [] Hp). Qed.

Lemma re_Y_fmt4 (y : Z) (rest : string) :
  0 <= y <= 9999 -> re_Y (fmt4 y ++ rest)%string = [(y, rest)].
Proof.
  intros Hy.
  assert (0 <= y / 1000 <= 9)
    by (Z.div_mod_to_equations; lia).
  pose proof (Z.mod_pos_bound (y / 100) 10 ltac:(lia)).
  pose proof (Z.mod_pos_bound (y / 10) 10 ltac:(lia)).
  pose proof (Z.mod_pos_bound y 10 ltac:(lia)).
  unfold re_Y, fmt4. rewrite !append_String.
  do 4 (erewrite bind_single by (apply p_digit_char; lia); cbv beta).
  unfold mret, parser_ret. do 3 f_equal.
  Z.div_mod_to_equations. lia.
Qed.


Lemma fmt_year_four (y : Z) : 1000 <= y -> fmt_year y = fmt4 y.
Proof.
  intros Hy. unfold fmt_year.
  rewrite (proj2 (Z.ltb_ge y 10)), (proj2 (Z.ltb_ge y 100)), (proj2 (Z.ltb_ge y 1000))
    by lia.
  reflexivity.
Qed.

Ltac field_case := eexists; split; [cbv; reflexivity | repeat constructor].

Lemma re_m_fmt2 (v : Z) (rest : string) :
  1 <= v <= 12 -> first_match_then_digits re_m (fmt2 v ++ rest)%string v rest.
Proof. intros ?; z_enum v. all: field_case. Qed.

Lemma re_d_fmt2 (v : Z) (rest : string) :
  1 <= v <= 31 -> first_match_then_digits re_d (fmt2 v ++ rest)%string v rest.
Proof. intros ?; z_enum v. all: field_case. Qed.

Lemma re_H_fmt2 (v : Z) (rest : string) :
  0 <= v <= 23 -> first_match_then_digits re_H (fmt2 v ++ rest)%string v rest.
Proof. intros ?; z_enum v. all: field_case. Qed.

Lemma re_M_fmt2 (v : Z) (rest : string) :
  0 <= v <= 59 -> first_match_then_digits re_M (fmt2 v ++ rest)%string v rest.
Proof. intros ?; z_enum v. all: field_case. Qed.

Lemma re_S_fmt2 (v : Z) (rest : string) :
  0 <= v <= 59 -> first_match_then_digits re_S (fmt2 v ++ rest)%string v rest.
Proof. intros ?; z_enum v. all: field_case. Qed.

Lemma bind_lit {B} (c : ascii) (k : unit -> parser B) (X : string) :
  (p_lit c ≫= k) (String c EmptyString ++ X)%string = k tt X.
Proof.
  apply bind_single. change (String c EmptyString ++ X)%string with (String c X).
  unfold p_lit. by rewrite Ascii.eqb_refl.
Qed.

Lemma bind_spaces {B} (k : unit -> parser B) (X : string) :
  digit_start X = true -> (p_spaces ≫= k) (" " ++ X)%string = k tt X.
Proof.
  intros HX. apply bind_single.
  change (" " ++ X)%string with (String " " X). cbn [p_spaces].
  change (is_space " ") with true.
  destruct X as [|c X]; [done|]. simpl in HX. cbn [p_spaces].
  assert (Hs : is_space c = false)
    by (destruct c as [[] [] [] [] [] [] [] []]; vm_compute in HX |- *;
        congruence).
  by rewrite Hs.
Qed.

Lemma digit_start_fmt2 (v : Z) (X : string) :
  0 <= v <= 99 -> digit_start (fmt2 v ++ X)%string = true.
Proof.
  intros Hv. change (fmt2 v ++ X)%string
    with (String (digit_char (v / 10)) (String (digit_char (v mod 10)) X)).
  simpl. rewrite digit_val_char; [done|]. Z.div_mod_to_equations. lia.
Qed.

(** The continuation after a field starts with a separator other than a
    digit, so only the first match of the field survives. *)
Ltac next_field H :=
  let j := fresh "junk" in let Hj := fresh "Hj" in let Hf := fresh "Hf" in
  destruct H as (j & Hj & Hf);
  rewrite (bind_first _ _ _ _ _ _ Hj);
  [ cbv beta
  | eapply Forall_impl; [exact Hf|]; intros [? ?] ?; cbv beta;
    first [ apply lit_digit_start; [reflexivity | assumption]
          | apply spaces_digit_start; assumption ] ].

Ltac bounds H :=
  repeat match type of H with
  | _ && _ = true => apply andb_prop in H as [H ?]
  end;
  repeat match goal with
  | H' : (_ <=? _) = true |- _ => apply Z.leb_le in H'
  end.

Lemma days_in_month_le (y m : Z) : days_in_month y m <= 31.
Proof.
  unfold days_in_month.
  destruct (m =? 2); [destruct (is_leap y); lia|].
  destruct (_ || _); lia.
Qed.

Lemma strptime_format_date (d : date) :
  valid_date d = true -> 1000 <= year d -> strptime_date (format_date d) = Some d.
Proof.
  destruct d as [y m dd]. unfold valid_date; simpl. intros Hv Hy.
  pose proof Hv as Hv'. unfold valid_ymd in Hv'. bounds Hv'.
  pose proof (days_in_month_le y m).
  unfold strptime_date, re_fullmatch, re_date, format_date; simpl.
  rewrite (fmt_year_four y Hy).
  rewrite (bind_single _ _ _ _ _ (re_Y_fmt4 y _ ltac:(lia))); cbv beta.
  rewrite bind_lit.
  next_field (re_m_fmt2 m ("-" ++ fmt2 dd)%string ltac:(lia)).
  rewrite bind_lit.
  rewrite <- (string_app_nil_r (fmt2 dd)).
  destruct (re_d_fmt2 dd "" ltac:(lia)) as (jl & Hl & _).
  rewrite (bind_cons _ _ _ _ _ _ Hl). simpl. by rewrite Hv.
Qed.


Lemma strptime_format_datetime (t : datetime) :
  valid_datetime t = true -> 1000 <= dt_year t ->
  strptime_datetime (format_datetime t) = Some (truncate_to_seconds t).
Proof.
  destruct t as [y m dd h mi s us]. unfold valid_datetime; simpl. intros Hv Hy.
  pose proof Hv as Hv'. unfold valid_ymd in Hv'. bounds Hv'.
  pose proof (days_in_month_le y m).
  unfold strptime_datetime, re_fullmatch, re_datetime, format_datetime; simpl.
  rewrite (fmt_year_four y Hy).
  rewrite (bind_single _ _ _ _ _ (re_Y_fmt4 y _ ltac:(lia))); cbv beta.
  rewrite bind_lit.
  next_field (re_m_fmt2 m ("-" ++ fmt2 dd ++ " " ++ fmt2 h ++ ":" ++ fmt2 mi
                           ++ ":" ++ fmt2 s)%string ltac:(lia)).
  rewrite bind_lit.
  next_field (re_d_fmt2 dd (" " ++ fmt2 h ++ ":" ++ fmt2 mi ++ ":" ++ fmt2 s)%string
                ltac:(lia)).
  rewrite bind_spaces by (apply digit_start_fmt2; lia).
  next_field (re_H_fmt2 h (":" ++ fmt2 mi ++ ":" ++ fmt2 s)%string ltac:(lia)).
  rewrite bind_lit.
  next_field (re_M_fmt2 mi (":" ++ fmt2 s)%string ltac:(lia)).
  rewrite bind_lit.
  rewrite <- (string_app_nil_r (fmt2 s)).
  destruct (re_S_fmt2 s "" ltac:(lia)) as (jl & Hl & _).
  rewrite (bind_cons _ _ _ _ _ _ Hl). simpl.
  unfold valid_datetime; simpl.
  rewrite (proj1 (andb_prop _ _ (proj1 (andb_prop _ _ (proj1 (andb_prop _ _ Hv)))))).
  by rewrite (proj2 (Z.leb_le s 59)) by lia.
Qed.

(* ------------------------------------------------------------------ *)
(** ** Categories *)

(** C6: [get_color_for_activity] returns the color stored for a category
    name that is a key of the mapping and the fixed fallback [#6C5CE7] for
    a name that is not; it is total, so it never fails. *)
Theorem get_color_for_activity_spec (name : string) (cats : gmap string string) :
  (forall c, cats !! name = Some c -> get_color_for_activity name cats = c) /\
  (cats !! name = None -> get_color_for_activity name cats = "#6C5CE7").
Proof. unfold get_color_for_activity. split; [intros c -> | intros ->]; done. Qed.

Lemma get_color_for_activity_spec_witness :
  let cats := <["Health" := "#00FF00"]> (∅ : gmap string string) in
  get_color_for_activity "Health" cats = "#00FF00" /\
  get_color_for_activity "Nonexistent" cats = "#6C5CE7".
Proof.
  intros cats. split.
  - apply (proj1 (get_color_for_activity_spec "Health" cats)). reflexivity.
  - apply (proj2 (get_color_for_activity_spec "Nonexistent" cats)). reflexivity.
Defined.

Lemma save_categories_spec (st : session) :
  exists st2 ok, save_categories st = (st2, ok) /\
    s_categories st2 = s_categories st /\
    s_activities st2 = s_activities st /\
    s_config_io st2 = s_config_io st /\
    (s_config_io st = IoOk -> ok = true /\ s_config_file st2 = ConfigJson (s_categories st)) /\
    (s_config_io st <> IoOk -> ok = false).
Proof.
  unfold save_categories. destruct (s_config_io st) eqn:Hio; eexists _, _;
    (split; [reflexivity|]); simpl; split_and!; try done; try congruence.
Qed.

(** C3: deleting a category that is in the collection fails with "Must
    have at least one category!", leaving the session unchanged, when the
    collection has exactly one entry; otherwise the entry is removed and
    [save_categories] is called, which writes the new collection to
    [CONFIG_FILE] when the file can be written (otherwise its error is
    shown and the removal stays in memory). So a delete never leaves the
    collection empty. *)
Theorem delete_category_keeps_one (n : string) (st : session) :
  is_Some (s_categories st !! n) ->
  (size (s_categories st) = 1%nat ->
     delete_category n st = (st, Failure "Must have at least one category!")) /\
  (size (s_categories st) <> 1%nat ->
     exists st2 ok,
       save_categories (set_categories (delete n (s_categories st)) st) = (st2, ok) /\
       delete_category n st
         = (st2, if ok then Success "" else Failure "Error saving categories config") /\
       s_categories st2 = delete n (s_categories st) /\
       (s_config_io st = IoOk ->
        ok = true /\ s_config_file st2 = ConfigJson (delete n (s_categories st)))) /\
  (forall st' fb, delete_category n st = (st', fb) -> size (s_categories st') <> 0%nat).
Proof.
  intros Hn. pose proof (map_size_ne_0_lookup_2 _ _ Hn) as Hne.
  pose proof (map_size_delete_Some _ _ Hn) as Hdel.
  destruct Hn as [c Hc].
  destruct (save_categories_spec (set_categories (delete n (s_categories st)) st))
    as (st2 & ok & Hsave & Hcats & _ & _ & Hok & _).
  unfold delete_category. split; [|split].
  - intros H1. rewrite H1. by rewrite bool_decide_false by lia.
  - intros H1. rewrite bool_decide_true by lia. rewrite Hc, Hsave.
    exists st2, ok. split_and!; try done.
  - intros st' fb. case_bool_decide.
    + rewrite Hc, Hsave. intros [= <- _]. rewrite Hcats. simpl. rewrite Hdel. lia.
    + intros [= <- _]. done.
Qed.

Lemma delete_category_keeps_one_witness :
  is_Some (s_categories empty_session !! "Work") /\
  delete_category "Work" empty_session
  = (empty_session, Failure "Must have at least one category!").
Proof.
  assert (H : is_Some (s_categories empty_session !! "Work")) by (eexists; reflexivity).
  split; [exact H|].
  apply (proj1 (delete_category_keeps_one "Work" empty_session H)). reflexivity.
Defined.

(* ------------------------------------------------------------------ *)
(** ** [save_activities] *)

Lemma alloc_spec (h h' : heap) (d : pydict) (l : nat) :
  alloc h d = (h', l) -> h !! l = None /\ h' = <[l := d]> h.
Proof.
  unfold alloc. intros [= <- <-]. split; [|done].
  apply not_elem_of_dom_1, is_fresh.
Qed.

Lemma heap_extends_refl (h : heap) : heap_extends h h.
Proof. by intros l x. Qed.

Lemma heap_extends_trans (h1 h2 h3 : heap) :
  heap_extends h1 h2 -> heap_extends h2 h3 -> heap_extends h1 h3.
Proof. intros H12 H23 l x Hl. by apply H23, H12. Qed.

Lemma heap_extends_fresh (h : heap) (c : nat) (f : pydict -> pydict) (h' : heap) :
  h !! c = None -> heap_extends h h' -> heap_extends h (alter f c h').
Proof.
  intros Hc Hext l x Hl. rewrite lookup_alter_ne; [by apply Hext | congruence].
Qed.

Lemma save_one_extends (h h' : heap) (l : nat) r :
  save_one h l = (h', r) -> heap_extends h h'.
Proof.
  unfold save_one. destruct (h !! l) as [a|]; [|intros [= <- _]; apply heap_extends_refl].
  destruct (alloc h a) as [h1 c] eqn:Ha. apply alloc_spec in Ha as [Hc ->].
  assert (Hext : heap_extends h (<[c := a]> h))
    by (intros l' x Hl'; rewrite lookup_insert_ne; [done | congruence]).
  repeat case_match; intros [= <- _];
    repeat (apply heap_extends_fresh; [done|]); exact Hext.
Qed.

Lemma save_loop_extends (ls : list nat) (h h' : heap) r :
  save_loop h ls = (h', r) -> heap_extends h h'.
Proof.
  revert h h' r. induction ls as [|l ls IH]; intros h h' r; simpl.
  - intros [= <- _]. apply heap_extends_refl.
  - destruct (save_one h l) as [h1 [e|c]] eqn:H1.
    + intros [= <- _]. by eapply save_one_extends.
    + destruct (save_loop h1 ls) as [h2 [e|cs]] eqn:H2; intros [= <- _];
        (apply (heap_extends_trans _ h1); [by eapply save_one_extends | by eapply IH]).
Qed.

Lemma save_one_ok (h : heap) (l : nat) (a s : pydict) :
  h !! l = Some a -> serialize_activity a = inr s ->
  exists c, h !! c = None /\ save_one h l = (<[c := s]> h, inr c).
Proof.
  intros Hl Hs. unfold save_one. rewrite Hl.
  destruct (alloc h a) as [h1 c] eqn:Ha. apply alloc_spec in Ha as [Hc ->].
  exists c. split; [done|].
  unfold serialize_activity in Hs.
  destruct (strftime_field strftime_date a "start_date"); [done|].
  destruct (strftime_field strftime_date a "end_date"); [done|].
  destruct (strftime_field strftime_datetime a "created_at"); [done|].
  injection Hs as <-.
  by rewrite !alter_insert_eq.
Qed.

Lemma save_loop_ok (h : heap) (ls : list nat) (ss : list pydict) :
  Forall2 (fun l s => exists a, h !! l = Some a /\ serialize_activity a = inr s) ls ss ->
  exists h' cs, save_loop h ls = (h', inr cs) /\ heap_extends h h'
                /\ omap (fun c => h' !! c) cs = ss.
Proof.
  revert h ss. induction ls as [|l ls IH]; intros h ss Hf.
  - apply Forall2_nil_inv_l in Hf as ->. exists h, []. split_and!; [done | apply heap_extends_refl | done].
  - apply Forall2_cons_inv_l in Hf as (s & ss' & (a & Ha & Hs) & Hf & ->).
    destruct (save_one_ok h l a s Ha Hs) as (c & Hc & Hone).
    assert (Hext1 : heap_extends h (<[c := s]> h))
      by (intros l' x Hl'; rewrite lookup_insert_ne; [done | congruence]).
    destruct (IH (<[c := s]> h) ss') as (h' & cs & Hloop & Hext2 & Hom).
    { eapply Forall2_impl; [exact Hf|]. intros l' s' (a' & Ha' & Hs').
      exists a'. split; [by apply Hext1 | done]. }
    exists h', (c :: cs). simpl. rewrite Hone, Hloop. split_and!; [done | |].
    + by eapply heap_extends_trans.
    + rewrite <- Hom. simpl. by rewrite (Hext2 c s) by (by rewrite lookup_insert_eq).
Qed.

Lemma forallb_Forall {A} (f : A -> bool) (xs : list A) :
  Forall (fun x => f x = true) xs -> forallb f xs = true.
Proof. induction 1 as [|x xs Hx _ IH]; simpl; [done|]. by rewrite Hx, IH. Qed.

(** What [save_activities] leaves as it was, whatever the outcome. *)
Lemma save_activities_frame (st st' : session) (ok : bool) :
  save_activities st = (st', ok) ->
  s_activities st' = s_activities st /\ s_categories st' = s_categories st /\
  heap_extends (s_heap st) (s_heap st') /\ s_config_file st' = s_config_file st /\
  s_data_io st' = s_data_io st /\ s_config_io st' = s_config_io st.
Proof.
  unfold save_activities.
  destruct (save_loop (s_heap st) (s_activities st)) as [h [e|cs]] eqn:Hl.
  - intros [= <- _]. simpl. split_and!; try done. by eapply save_loop_extends.
  - destruct (s_data_io st) eqn:Hio; [destruct (forallb _ _)| |]; intros [= <- _]; simpl;
      split_and!; try done; by eapply save_loop_extends.
Qed.

(** When every activity of the collection can be turned into strings and
    the copies can be encoded, [save_activities] on a writable file
    succeeds and the file holds exactly those records, in the order of
    the collection. *)
Lemma save_activities_writes (st : session) (ss : list pydict) :
  s_data_io st = IoOk ->
  Forall2 (fun l s => exists a, s_heap st !! l = Some a /\ serialize_activity a = inr s)
          (s_activities st) ss ->
  Forall (fun s => json_record_ok s = true) ss ->
  exists h', save_activities st = (set_data_file (JsonDoc ss) (set_heap h' st), true)
             /\ heap_extends (s_heap st) h'.
Proof.
  intros Hio Hf Hj. destruct (save_loop_ok _ _ _ Hf) as (h' & cs & Hloop & Hext & Hom).
  exists h'. unfold save_activities. rewrite Hloop, Hom, Hio, (forallb_Forall _ _ Hj).
  done.
Qed.

(** C10: [save_activities] leaves the collection it is given unchanged:
    the list of activities is the same and every activity object holds the
    same dict (its [date] and [datetime] values, not the formatted
    strings); only fresh copies are changed. *)
Theorem save_activities_preserves_collection (st st' : session) (ok : bool) :
  save_activities st = (st', ok) ->
  s_activities st' = s_activities st /\
  s_categories st' = s_categories st /\
  (forall l d, s_heap st !! l = Some d -> s_heap st' !! l = Some d).
Proof.
  intros Hs. destruct (save_activities_frame _ _ _ Hs) as (H1 & H2 & H3 & _).
  split_and!; [exact H1 | exact H2 | exact H3].
Qed.

Lemma save_activities_preserves_collection_witness :
  save_activities sample_session = (fst (save_activities sample_session), true) /\
  s_heap (fst (save_activities sample_session)) !! 0%nat = Some sample_activity.
Proof.
  assert (Hs : save_activities sample_session = (fst (save_activities sample_session), true))
    by reflexivity.
  split; [exact Hs|].
  destruct (save_activities_preserves_collection _ _ _ Hs) as (_ & _ & Hh).
  apply Hh. reflexivity.
Defined.

(* ------------------------------------------------------------------ *)
(** ** The date codec: round trip *)

(** C8 (as the code has it): formatting then parsing a valid date with a
    four-digit year gives the date back; formatting then parsing a valid
    datetime with a four-digit year gives it back truncated to whole
    seconds, since ['%Y-%m-%d %H:%M:%S'] prints no microseconds. *)
Theorem codec_round_trip (d : date) (t : datetime) :
  valid_date d = true -> 1000 <= year d ->
  valid_datetime t = true -> 1000 <= dt_year t ->
  strptime_date (format_date d) = Some d /\
  strptime_datetime (format_datetime t) = Some (truncate_to_seconds t).
Proof.
  intros Hd Hy Ht Hty.
  split; [by apply strptime_format_date | by apply strptime_format_datetime].
Qed.

Lemma codec_round_trip_witness :
  strptime_date (format_date (mkDate 2024 2 29)) = Some (mkDate 2024 2 29) /\
  strptime_datetime (format_datetime (mkDateTime 2024 1 1 9 0 0 250000))
    = Some (mkDateTime 2024 1 1 9 0 0 0).
Proof.
  apply (codec_round_trip (mkDate 2024 2 29) (mkDateTime 2024 1 1 9 0 0 250000));
    first [reflexivity | simpl; lia].
Defined.

(** C8 fails for datetimes: [datetime.now()] carries microseconds, which
    the round trip drops. It fails for the years 1 to 999 too: [%Y]
    writes [date(500, 1, 1)] as ['500-01-01'], which [%Y] (four digits)
    does not read back. *)
Lemma codec_round_trip_counterexample :
  valid_datetime (mkDateTime 2024 1 1 9 0 0 250000) = true /\
  strptime_datetime (format_datetime (mkDateTime 2024 1 1 9 0 0 250000))
    <> Some (mkDateTime 2024 1 1 9 0 0 250000) /\
  valid_date (mkDate 500 1 1) = true /\
  format_date (mkDate 500 1 1) = "500-01-01" /\
  strptime_date (format_date (mkDate 500 1 1)) = None.
Proof. split_and!; [reflexivity | vm_compute; congruence | reflexivity..]. Qed.

(* ------------------------------------------------------------------ *)
(** ** [load_activities] *)

Lemma load_loop_app_fail (pre post : list pydict) (r : pydict) (pre' : list pydict)
    (e : py_exn) :
  load_loop pre = inr pre' -> load_one r = inl e ->
  load_loop (pre ++ r :: post) = inl e.
Proof.
  revert pre'. induction pre as [|d pre IH]; intros pre' Hpre Hr; simpl.
  - by rewrite Hr.
  - simpl in Hpre. destruct (load_one d); [done|].
    destruct (load_loop pre) as [|p] eqn:Hp; [done|].
    by rewrite (IH p eq_refl Hr).
Qed.

Lemma load_loop_length (ds ds' : list pydict) :
  load_loop ds = inr ds' -> length ds' = length ds.
Proof.
  revert ds'. induction ds as [|d ds IH]; intros ds'; simpl.
  - by intros [= <-].
  - destruct (load_one d); [done|]. destruct (load_loop ds) eqn:Hl; [done|].
    intros [= <-]. simpl. by rewrite (IH _ eq_refl).
Qed.

(** C1 (as the code has it): reading the data file is all or nothing.
    When every record's [start_date], [end_date] and [created_at] parse,
    every record is returned, converted; when one record fails (a date
    that does not parse raises [ValueError], a missing field [KeyError])
    after records that parse, the error is shown and the whole collection
    is dropped: the empty list is returned. *)
Theorem load_activities_all_or_nothing (ds ds' pre pre' post : list pydict) (r : pydict)
    (e : py_exn) :
  (load_loop ds = inr ds' ->
     load_activities (JsonDoc ds) = Loaded false ds' /\ length ds' = length ds) /\
  (load_loop pre = inr pre' -> load_one r = inl e -> e <> TypeError ->
     load_activities (JsonDoc (pre ++ r :: post)) = Loaded true []).
Proof.
  split.
  - intros Hl. simpl. rewrite Hl. split; [done|]. by apply load_loop_length.
  - intros Hpre Hr He. simpl. rewrite (load_loop_app_fail _ _ _ _ _ Hpre Hr).
    by destruct e.
Qed.

Lemma load_activities_all_or_nothing_witness :
  (load_activities (JsonDoc [json_good]) = Loaded false [loaded_good] /\
   length [loaded_good] = length [json_good]) /\
  load_activities (JsonDoc ([json_good] ++ json_bad_start :: [])) = Loaded true [].
Proof.
  split.
  - apply (proj1 (load_activities_all_or_nothing [json_good] [loaded_good] [] [] [] ∅ KeyError)).
    reflexivity.
  - apply (proj2 (load_activities_all_or_nothing [] [] [json_good] [loaded_good] []
                    json_bad_start ValueError)); [reflexivity | reflexivity | done].
Defined.

(** C1 fails: one record whose [start_date] does not parse makes the
    well-formed record before it disappear too. *)
Lemma load_activities_counterexample :
  load_one json_good = inr loaded_good /\
  load_activities (JsonDoc [json_good; json_bad_start]) = Loaded true [].
Proof. split; reflexivity. Qed.

(** C9 (as the code has it): a record whose [created_at] does not parse
    is not given the current time: [load_activities] has no clock, the
    [ValueError] is caught by the [try] around the whole loop, the error
    is shown and the empty collection is returned. *)
Theorem load_activities_created_at_failure (pre pre' post : list pydict)
    (r r1 r2 : pydict) (s : string) :
  load_loop pre = inr pre' ->
  strptime_field parse_date_field "start_date" r = inr r1 ->
  strptime_field parse_date_field "end_date" r1 = inr r2 ->
  r2 !! "created_at" = Some (PStr s) -> strptime_datetime s = None ->
  load_activities (JsonDoc (pre ++ r :: post)) = Loaded true [].
Proof.
  intros Hpre H1 H2 Hc Hs.
  assert (Hr : load_one r = inl ValueError).
  { unfold load_one. rewrite H1, H2. unfold strptime_field.
    by rewrite Hc; unfold parse_datetime_field; rewrite Hs. }
  simpl. by rewrite (load_loop_app_fail _ _ _ _ _ Hpre Hr).
Qed.

Lemma load_activities_created_at_failure_witness :
  load_activities (JsonDoc ([] ++ json_bad_created :: [])) = Loaded true [].
Proof.
  apply (load_activities_created_at_failure [] [] [] json_bad_created
           (<["start_date" := PDate (mkDate 2024 1 5)]> json_bad_created)
           (<["end_date" := PDate (mkDate 2024 1 6)]>
              (<["start_date" := PDate (mkDate 2024 1 5)]> json_bad_created))
           "yesterday"); reflexivity.
Defined.

(** C9 fails: the record with a bad [created_at] is not kept with the
    current time; the session starts with no activity at all. *)
Lemma load_activities_created_at_counterexample :
  load_activities (JsonDoc [json_bad_created])
    <> Loaded false
         [<["created_at" := PDateTime (mkDateTime 2024 6 1 12 0 0 0)]>
          (<["end_date" := PDate (mkDate 2024 1 6)]>
           (<["start_date" := PDate (mkDate 2024 1 5)]> json_bad_created))].
Proof. vm_compute. congruence. Qed.

(* ------------------------------------------------------------------ *)
(** ** Sorting by start date *)

Lemma date_compare_antisym (a b : date) : date_compare b a = CompOpp (date_compare a b).
Proof.
  unfold date_compare. rewrite (Z.compare_antisym (year a)).
  destruct (year a ?= year b); simpl; try done.
  rewrite (Z.compare_antisym (month a)).
  destruct (month a ?= month b); simpl; try done.
  apply Z.compare_antisym.
Qed.

Lemma date_lt_asym (a b : date) : date_lt a b = true -> date_lt b a = false.
Proof.
  unfold date_lt. rewrite (date_compare_antisym a b).
  destruct (date_compare a b); simpl; intros; congruence.
Qed.

Lemma date_lt_irrefl (a : date) : date_lt a a = false.
Proof. unfold date_lt, date_compare. by rewrite !Z.compare_refl. Qed.


Lemma insert_by_start_perm (x : nat * date) (xs : list (nat * date)) :
  insert_by_start x xs ≡ₚ x :: xs.
Proof.
  induction xs as [|y ys IH]; simpl; [done|].
  destruct (date_lt (snd y) (snd x)); [|done].
  rewrite IH. apply Permutation_swap.
Qed.

Lemma sort_by_start_perm (xs : list (nat * date)) : sort_by_start xs ≡ₚ xs.
Proof.
  induction xs as [|x xs IH]; simpl; [done|].
  by rewrite insert_by_start_perm, IH.
Qed.

Lemma insert_by_start_sorted (x : nat * date) (xs : list (nat * date)) :
  Sorted start_le xs -> Sorted start_le (insert_by_start x xs).
Proof.
  induction 1 as [|y ys Hs IH Hhd]; simpl.
  - repeat constructor.
  - destruct (date_lt (snd y) (snd x)) eqn:Hyx.
    + constructor; [done|].
      destruct ys as [|z zs]; simpl.
      * constructor. unfold start_le, date_le. by rewrite date_lt_asym.
      * destruct (date_lt (snd z) (snd x)).
        -- constructor. by inversion Hhd.
        -- constructor. unfold start_le, date_le. by rewrite date_lt_asym.
    + constructor; [by constructor|]. constructor. unfold start_le, date_le. by rewrite Hyx.
Qed.

Lemma sort_by_start_sorted (xs : list (nat * date)) : Sorted start_le (sort_by_start xs).
Proof.
  induction xs as [|x xs IH]; simpl; [constructor|]. by apply insert_by_start_sorted.
Qed.

(** An element goes in front of the elements with its key, so the
    elements of one key keep their order. *)
Lemma insert_by_start_filter (d : date) (x : nat * date) (xs : list (nat * date)) :
  filter (fun p => snd p = d) (insert_by_start x xs) = filter (fun p => snd p = d) (x :: xs).
Proof.
  induction xs as [|y ys IH]; simpl; [done|].
  destruct (date_lt (snd y) (snd x)) eqn:Hyx; [|done].
  rewrite filter_cons, IH, !filter_cons.
  destruct (decide (snd y = d)) as [Hy|Hy], (decide (snd x = d)) as [Hx|Hx]; try done.
  exfalso. rewrite Hy, Hx, date_lt_irrefl in Hyx. done.
Qed.

Lemma sort_by_start_filter (d : date) (xs : list (nat * date)) :
  filter (fun p => snd p = d) (sort_by_start xs) = filter (fun p => snd p = d) xs.
Proof.
  induction xs as [|x xs IH]; simpl; [done|].
  rewrite insert_by_start_filter, !filter_cons. by rewrite IH.
Qed.

Lemma Sorted_strengthen {A} (R : relation A) (Q : A -> Prop) (l : list A) :
  Forall Q l -> Sorted R l -> Sorted (fun a b => Q a /\ Q b /\ R a b) l.
Proof.
  intros HQ HS. induction HS as [|a l HS IH Hhd]; [constructor|].
  apply Forall_cons in HQ as [Ha Hl]. constructor; [by apply IH|].
  destruct Hhd as [|b l' Hab]; constructor.
  apply Forall_cons in Hl as [Hb _]. done.
Qed.

Lemma filter_fst_keyed (h : heap) (d : date) (ps : list (nat * date)) :
  Forall (fun p => start_of h (fst p) = Some (PDate (snd p))) ps ->
  filter (fun l => start_of h l = Some (PDate d)) (fst <$> ps)
  = fst <$> filter (fun p => snd p = d) ps.
Proof.
  induction 1 as [|p ps Hp _ IH]; [done|].
  rewrite fmap_cons, !filter_cons, Hp.
  destruct (decide (snd p = d)) as [->|Hne].
  - rewrite decide_True by done. by rewrite IH.
  - rewrite decide_False by congruence. done.
Qed.

Lemma sorted_activities_keyed (h : heap) (acts : list nat) (keyed : list (nat * date)) :
  mapM (fun l => match start_of h l with
                 | Some (PDate d) => Some (l, d)
                 | _ => None
                 end) acts = Some keyed ->
  acts = fst <$> keyed /\ Forall (fun p => start_of h (fst p) = Some (PDate (snd p))) keyed.
Proof.
  intros Hm. apply mapM_Some_1 in Hm.
  induction Hm as [|l p ls ps Hlp _ [IH1 IH2]]; [done|].
  destruct (start_of h l) as [[]|] eqn:Hs; try discriminate.
  injection Hlp as <-. simpl. split; [by f_equal|]. by constructor.
Qed.


(** C7: [sorted(activities, key=lambda x: x['start_date'])] returns a
    permutation of the collection, ascending by start date, in which the
    activities of each start date keep their order in the collection; on
    the activities 1, 2, 3 starting on 2024-01-05, 2024-01-01, 2024-01-01
    it returns 2, 3, 1. *)
Theorem sorted_activities_stable :
  (forall (h : heap) (acts out : list nat),
     sorted_activities h acts = Some out ->
     out ≡ₚ acts /\ Sorted (start_before h) out /\
     (forall d, filter (fun l => start_of h l = Some (PDate d)) out
                = filter (fun l => start_of h l = Some (PDate d)) acts)) /\
  (exists out, sorted_activities sort_sample_heap [1; 2; 3]%nat = Some out /\
     ids_of sort_sample_heap out = [Some (PStr "2"); Some (PStr "3"); Some (PStr "1")]).
Proof.
  split.
  - intros h acts out Hs. unfold sorted_activities in Hs.
    destruct (mapM _ acts) as [keyed|] eqn:Hm; [|discriminate].
    injection Hs as <-.
    destruct (sorted_activities_keyed h acts keyed Hm) as [-> HF].
    assert (HF' : Forall (fun p => start_of h (fst p) = Some (PDate (snd p)))
                         (sort_by_start keyed))
      by (by rewrite sort_by_start_perm).
    split; [|split].
    + by rewrite sort_by_start_perm.
    + apply (Sorted_fmap _ (fun a b => start_of h (fst a) = Some (PDate (snd a)) /\
                                      start_of h (fst b) = Some (PDate (snd b)) /\
                                      start_le a b)).
      * intros x y (Hx & Hy & Hxy). by exists (snd x), (snd y).
      * apply Sorted_strengthen; [done|]. apply sort_by_start_sorted.
    + intros d. rewrite !filter_fst_keyed by done. by rewrite sort_by_start_filter.
  - eexists. split; [reflexivity|]. reflexivity.
Qed.

Lemma sorted_activities_stable_witness :
  sorted_activities sort_sample_heap [1; 2; 3]%nat = Some [2; 3; 1]%nat /\
  [2; 3; 1]%nat ≡ₚ [1; 2; 3]%nat.
Proof.
  split; [vm_compute; reflexivity|].
  exact (proj1 (proj1 sorted_activities_stable sort_sample_heap [1; 2; 3]%nat [2; 3; 1]%nat
                  ltac:(vm_compute; reflexivity))).
Defined.

(* ------------------------------------------------------------------ *)
(** ** Adding an activity *)

Lemma heap_extends_insert_fresh (h : heap) (l : nat) (d : pydict) :
  h !! l = None -> heap_extends h (<[l := d]> h).
Proof. intros Hl l' x Hl'. rewrite lookup_insert_ne; [done | congruence]. Qed.


(** The copy written for a record is encoded when every field other
    than the three dates is. *)
Lemma serialize_json_ok (a s : pydict) :
  serialize_activity a = inr s ->
  map_Forall (fun k v => k <> "start_date" -> k <> "end_date" -> k <> "created_at" ->
                         json_value_ok v = true) a ->
  json_record_ok s = true.
Proof.
  intros Hs Ha. unfold serialize_activity in Hs.
  destruct (strftime_field strftime_date a "start_date") as [|sd]; [done|].
  destruct (strftime_field strftime_date a "end_date") as [|ed]; [done|].
  destruct (strftime_field strftime_datetime a "created_at") as [|ca]; [done|].
  injection Hs as <-. apply bool_decide_eq_true_2, map_Forall_lookup. intros k v Hk.
  apply lookup_insert_Some in Hk as [[_ <-]|[Hk1 Hk]]; [done|].
  apply lookup_insert_Some in Hk as [[_ <-]|[Hk2 Hk]]; [done|].
  apply lookup_insert_Some in Hk as [[_ <-]|[Hk3 Hk]]; [done|].
  exact (map_Forall_lookup_1 _ _ _ _ Ha Hk ltac:(congruence) ltac:(congruence)
           ltac:(congruence)).
Qed.






(* ------------------------------------------------------------------ *)
(** ** Editing an activity *)

Lemma py_eq_str (v : pyval) (i : string) : py_eq v (PStr i) = true <-> v = PStr i.
Proof.
  destruct v; simpl; split; try discriminate; intros H.
  - apply bool_decide_eq_true in H. by subst.
  - apply bool_decide_eq_true. congruence.
Qed.

(** With a string id that no other activity of the collection has, the
    loop of the edit handler stops at the edited activity. *)
Lemma find_by_id_unique (h : heap) (i : string) (acts : list nat) (activity : nat) :
  activity ∈ acts ->
  Forall (fun l => is_Some (h !! l ≫= lookup "id")) acts ->
  (forall l, l ∈ acts -> h !! l ≫= lookup "id" = Some (PStr i) -> l = activity) ->
  h !! activity ≫= lookup "id" = Some (PStr i) ->
  find_by_id h (PStr i) acts = inr (Some activity).
Proof.
  intros Hin Hall Huniq Hid. induction acts as [|l ls IH]; [by apply elem_of_nil in Hin|].
  apply Forall_cons in Hall as [[v Hv] Hall].
  cbn [find_by_id]. rewrite Hv.
  destruct (py_eq v (PStr i)) eqn:Heq.
  - apply py_eq_str in Heq. subst v. f_equal. f_equal.
    apply Huniq; [by left | done].
  - assert (Hne : l <> activity).
    { intros ->. rewrite Hid in Hv. injection Hv as <-.
      rewrite (proj2 (py_eq_str (PStr i) i) eq_refl) in Heq. discriminate. }
    apply IH; [| done |].
    + apply elem_of_cons in Hin as [->|Hin]; [done | done].
    + intros l' Hl'. apply Huniq. by right.
Qed.

(** The edit leaves [id] and [created_at] as they were. *)
Lemma edit_fields_keeps (edit_name : string) (es ee : date) (ec ep ed : string) (a : pydict) :
  edit_fields edit_name es ee ec ep ed a !! "id" = a !! "id" /\
  edit_fields edit_name es ee ec ep ed a !! "created_at" = a !! "created_at".
Proof. unfold edit_fields. split; by rewrite !lookup_insert_ne. Qed.

(** C5, where the id of the edited activity is a string that no other
    activity of the collection carries (as [str(uuid.uuid4())] gives):
    "Save Changes" with a valid name and dates replaces the six fields of
    that activity, keeps its [id] and [created_at], leaves every other
    object as it was, and saves. *)
Theorem save_edit_unique_id (activity : nat) (a : pydict) (i : string)
    (edit_name : string) (es ee : date) (ec ep ed : string) (st : session) :
  edit_name <> "" -> date_le es ee = true ->
  s_heap st !! activity = Some a -> a !! "id" = Some (PStr i) ->
  activity ∈ s_activities st ->
  Forall (fun l => is_Some (s_heap st !! l ≫= lookup "id")) (s_activities st) ->
  (forall l, l ∈ s_activities st -> s_heap st !! l ≫= lookup "id" = Some (PStr i) ->
             l = activity) ->
  exists st2 fb,
    save_edit activity edit_name es ee ec ep ed st = (st2, fb) /\
    s_activities st2 = s_activities st /\
    s_heap st2 !! activity = Some (edit_fields edit_name es ee ec ep ed a) /\
    (edit_fields edit_name es ee ec ep ed a !! "id" = a !! "id" /\
     edit_fields edit_name es ee ec ep ed a !! "created_at" = a !! "created_at") /\
    (forall l d, l <> activity -> s_heap st !! l = Some d -> s_heap st2 !! l = Some d) /\
    (fb = Success "Activity updated and saved!" \/
     fb = Failure "Activity updated but failed to save").
Proof.
  intros Hn Hle Ha Hid Hin Hall Huniq.
  assert (Hid' : s_heap st !! activity ≫= lookup "id" = Some (PStr i))
    by (rewrite Ha; exact Hid).
  unfold save_edit. rewrite (bool_decide_eq_true_2 _ Hn), Hle. cbn [andb].
  rewrite Hid', (find_by_id_unique _ _ _ _ Hin Hall Huniq Hid').
  set (h := alter (edit_fields edit_name es ee ec ep ed) activity (s_heap st)).
  destruct (save_activities (set_heap h st)) as [st2 ok] eqn:Hsave.
  destruct (save_activities_frame _ _ _ Hsave) as (Hacts & _ & Hext & _).
  cbn in Hacts, Hext.
  eexists _, _. split; [reflexivity|]. split_and!.
  - done.
  - apply Hext. unfold h. by rewrite lookup_alter, decide_True, Ha.
  - apply edit_fields_keeps.
  - apply edit_fields_keeps.
  - intros l d Hl Hd. apply Hext. unfold h. by rewrite lookup_alter_ne.
  - destruct ok; [left | right]; reflexivity.
Qed.

Lemma save_edit_unique_id_witness :
  exists st2 fb,
    save_edit 0%nat "Gym twice" (mkDate 2024 1 5) (mkDate 2024 1 7) "Work" "High" "" sample_session
      = (st2, fb) /\
    s_heap st2 !! 0%nat = Some (edit_fields "Gym twice" (mkDate 2024 1 5) (mkDate 2024 1 7)
                                  "Work" "High" "" sample_activity).
Proof.
  destruct (save_edit_unique_id 0%nat sample_activity "a1" "Gym twice" (mkDate 2024 1 5)
              (mkDate 2024 1 7) "Work" "High" "" sample_session
              ltac:(discriminate) ltac:(vm_compute; reflexivity) ltac:(vm_compute; reflexivity)
              ltac:(vm_compute; reflexivity) ltac:(left)
              ltac:(repeat constructor; vm_compute; eexists; reflexivity)
              ltac:(intros l Hl _; apply list_elem_of_singleton in Hl; exact Hl))
    as (st2 & fb & Hs & _ & Hl & _).
  exists st2, fb. split; [exact Hs | exact Hl].
Defined.

(** C5 (divergence): an activity imported from a CSV whose [id] cell is
    empty has the id [nan]; [nan == nan] is false in Python, so the loop
    of "Save Changes" finds no activity to update: the activity keeps its
    old fields, yet the collection is saved and "Activity updated and
    saved!" is shown. *)
Lemma save_edit_nan_id_counterexample :
  s_activities nan_id_session = [0%nat] /\
  s_heap nan_id_session !! 0%nat ≫= lookup "id" = Some PNaN /\
  snd nan_id_edit = Success "Activity updated and saved!" /\
  s_heap (fst nan_id_edit) !! 0%nat = s_heap nan_id_session !! 0%nat /\
  s_heap (fst nan_id_edit) !! 0%nat ≫= lookup "name" = Some (PStr "Swim") /\
  s_heap (fst nan_id_edit) !! 0%nat ≫= lookup "end_date" = Some (PDate (mkDate 2024 3 2)).
Proof.
  split_and!; first [apply bool_decide_eq_true_1; vm_compute; reflexivity
                    | vm_compute; reflexivity].
Qed.

(* ------------------------------------------------------------------ *)
(** ** CSV import *)

Section CsvImportProofs.

Variable to_dt : list pyval -> option (list pyval).
(** [pd.to_datetime] on a Series returns a Series of the same length. *)
Hypothesis to_dt_length : forall col col', to_dt col = Some col' -> length col' = length col.








End CsvImportProofs.






(* ------------------------------------------------------------------ *)
(** ** Saving, then reading the file back *)

Ltac lookup_insert_simpl :=
  repeat (first [rewrite lookup_insert_eq | rewrite lookup_insert_ne by done]).

Lemma serialize_well_formed (a : pydict) :
  well_formed_activity a ->
  exists s, serialize_activity a = inr s /\ json_record_ok s = true /\
            load_one s = inr (reloaded_activity a).
Proof.
  intros (sd & ed & t & Hsd & Hed & Hca & Vsd & Ved & Vt & Ysd & Yed & Yt & Hj).
  assert (Hs : serialize_activity a
               = inr (<["created_at" := PStr (format_datetime t)]>
                        (<["end_date" := PStr (format_date ed)]>
                           (<["start_date" := PStr (format_date sd)]> a))))
    by (unfold serialize_activity, strftime_field; rewrite Hsd, Hed, Hca; reflexivity).
  eexists. split_and!; [exact Hs | exact (serialize_json_ok a _ Hs Hj) |].
  - unfold reloaded_activity. rewrite Hca.
    unfold load_one, strptime_field. lookup_insert_simpl.
    unfold parse_date_field. rewrite (strptime_format_date sd Vsd Ysd).
    cbn [fmap option_fmap option_map]. lookup_insert_simpl.
    rewrite (strptime_format_date ed Ved Yed). cbn [fmap option_fmap option_map].
    lookup_insert_simpl.
    unfold parse_datetime_field. rewrite (strptime_format_datetime t Vt Yt).
    cbn [fmap option_fmap option_map]. f_equal.
    apply map_eq. intros k.
    destruct (decide (k = "created_at")) as [->|?]; [by lookup_insert_simpl|].
    destruct (decide (k = "end_date")) as [->|?]; [lookup_insert_simpl; by rewrite Hed|].
    destruct (decide (k = "start_date")) as [->|?]; [lookup_insert_simpl; by rewrite Hsd|].
    by repeat (rewrite lookup_insert_ne by congruence).
Qed.

Lemma serialize_all_well_formed (h : heap) (acts : list nat) :
  Forall (fun l => exists a, h !! l = Some a /\ well_formed_activity a) acts ->
  exists ss ds,
    Forall2 (fun l s => exists a, h !! l = Some a /\ serialize_activity a = inr s) acts ss /\
    Forall (fun s => json_record_ok s = true) ss /\
    load_loop ss = inr ds /\
    Forall2 (fun l d => exists a, h !! l = Some a /\ d = reloaded_activity a) acts ds.
Proof.
  induction 1 as [|l acts (a & Ha & Hwf) _ (ss & ds & Hss & Hj & Hload & Hds)].
  - exists [], []. split_and!; constructor.
  - destruct (serialize_well_formed a Hwf) as (s & Hs & Hjs & Hone).
    exists (s :: ss), (reloaded_activity a :: ds). split_and!.
    + constructor; [by exists a | done].
    + by constructor.
    + simpl. by rewrite Hone, Hload.
    + constructor; [by exists a | done].
Qed.

Lemma extend_activities_spec (h : heap) (acc : list nat) (ds : list pydict) :
  exists ls h', extend_activities h acc ds = (h', acc ++ ls) /\
                Forall2 (fun l d => h' !! l = Some d) ls ds /\ heap_extends h h'.
Proof.
  revert h acc. induction ds as [|d ds IH]; intros h acc; cbn [extend_activities].
  - exists [], h. rewrite app_nil_r. split_and!; [done | constructor | apply heap_extends_refl].
  - destruct (alloc h d) as [h1 l] eqn:Ha. apply alloc_spec in Ha as [Hl ->].
    destruct (IH (<[l := d]> h) (acc ++ [l])) as (ls & h' & Hext & Hf & Hh).
    exists (l :: ls), h'. rewrite Hext, <- app_assoc. split_and!; [done | |].
    + constructor; [|done]. apply Hh. by rewrite lookup_insert_eq.
    + eapply heap_extends_trans; [|exact Hh]. by apply heap_extends_insert_fresh.
Qed.

(** Saving, then pressing "Reload Data": when [DATA_FILE] can be written
    and every activity holds valid date objects of years 1000 or later for
    its dates, a valid datetime of such a year for [created_at], and
    JSON-encodable values (strings, numbers, [None]) in its other fields,
    the save succeeds, the file reads back without error, and the reloaded
    collection holds, in the same order, new objects equal to the saved
    ones except that [created_at] loses its microseconds. *)
Theorem save_then_reload (st : session) :
  s_data_io st = IoOk ->
  Forall (fun l => exists a, s_heap st !! l = Some a /\ well_formed_activity a)
         (s_activities st) ->
  exists st1 ds st2,
    save_activities st = (st1, true) /\
    load_activities (s_data_file st1) = Loaded false ds /\
    Forall2 (fun l d => exists a, s_heap st !! l = Some a /\ d = reloaded_activity a)
            (s_activities st) ds /\
    reload_data st1 = inl st2 /\
    Forall2 (fun l l' => exists a, s_heap st !! l = Some a /\
                                   s_heap st2 !! l' = Some (reloaded_activity a))
            (s_activities st) (s_activities st2).
Proof.
  intros Hio Hall.
  destruct (serialize_all_well_formed _ _ Hall) as (ss & ds & Hss & Hj & Hload & Hds).
  destruct (save_activities_writes st ss Hio Hss Hj) as (h' & Hsave & _).
  set (st1 := set_data_file (JsonDoc ss) (set_heap h' st)).
  assert (Hl1 : load_activities (s_data_file st1) = Loaded false ds)
    by (simpl; by rewrite Hload).
  destruct (extend_activities_spec h' [] ds) as (ls & h'' & Hext & Hf & _).
  exists st1, ds, (set_activities ls (set_heap h'' st1)). split_and!; try done.
  - unfold reload_data. rewrite Hl1. simpl in Hext |- *. by rewrite Hext.
  - simpl. clear -Hds Hf.
    revert ds ls Hds Hf. induction (s_activities st) as [|l acts IH]; intros ds ls Hds Hf.
    + apply Forall2_nil_inv_l in Hds as ->. apply Forall2_nil_inv_r in Hf as ->. constructor.
    + apply Forall2_cons_inv_l in Hds as (d & ds' & (a & Ha & ->) & Hds & ->).
      apply Forall2_cons_inv_r in Hf as (l' & ls' & Hl' & Hf & ->).
      constructor; [by exists a | by eapply IH].
Qed.

Lemma save_then_reload_witness :
  exists st1 ds st2,
    save_activities sample_session = (st1, true) /\
    load_activities (s_data_file st1) = Loaded false ds /\
    Forall2 (fun l d => exists a, s_heap sample_session !! l = Some a /\ d = reloaded_activity a)
            (s_activities sample_session) ds /\
    reload_data st1 = inl st2 /\
    Forall2 (fun l l' => exists a, s_heap sample_session !! l = Some a /\
                                   s_heap st2 !! l' = Some (reloaded_activity a))
            (s_activities sample_session) (s_activities st2).
Proof.
  apply save_then_reload; [reflexivity|]. constructor; [|constructor].
  exists sample_activity. split; [reflexivity|].
  exists (mkDate 2024 1 5), (mkDate 2024 1 6), (mkDateTime 2024 1 1 9 0 0 250000).
  split_and!; try reflexivity; try (simpl; lia).
  unfold sample_activity. repeat apply map_Forall_insert_2; try apply map_Forall_empty;
    intros; first [reflexivity | congruence].
Defined.

(** "Clear All Activities", then "Reload Data": the collection is empty
    and the categories are untouched. When [DATA_FILE] can be written, the
    file holds an empty list and reads back without error; when it cannot
    be opened, the file is left as it was (and "Reload Data" reads the old
    activities back); when the write fails midway, the file is no longer
    JSON and reads back as an empty list with an error shown. *)
Theorem clear_all_then_reload (st : session) :
  s_activities (clear_all st) = [] /\
  s_categories (clear_all st) = s_categories st /\
  (s_data_io st = IoOk ->
   s_data_file (clear_all st) = JsonDoc [] /\ reload_data (clear_all st) = inl (clear_all st)) /\
  (s_data_io st = IoOpenFails -> s_data_file (clear_all st) = s_data_file st) /\
  (s_data_io st = IoWriteFails ->
   s_data_file (clear_all st) = NotJson /\
   load_activities (s_data_file (clear_all st)) = Loaded true []).
Proof.
  unfold clear_all, save_activities. cbn.
  split_and!; [destruct (s_data_io st); reflexivity | destruct (s_data_io st); reflexivity |
                intros Hio; rewrite Hio; repeat split ..].
Qed.

Lemma clear_all_then_reload_witness :
  s_data_file (clear_all sample_session) = JsonDoc [] /\
  s_data_file (clear_all readonly_session) = s_data_file readonly_session.
Proof.
  split.
  - exact (proj1 (proj1 (proj2 (proj2 (clear_all_then_reload sample_session))) eq_refl)).
  - exact (proj1 (proj2 (proj2 (proj2 (clear_all_then_reload readonly_session)))) eq_refl).
Defined.

(* ------------------------------------------------------------------ *)
(** ** Deleting an activity *)

Lemma filter_ne_id_ok (h : heap) (target : pyval) (ls : list nat) :
  Forall (fun l => is_Some (h !! l ≫= lookup "id")) ls ->
  filter_ne_id h target ls = inr (filter (fun l => same_id h target l = false) ls).
Proof.
  induction 1 as [|l ls Hl _ IH]; [done|].
  destruct Hl as [v Hv]. cbn [filter_ne_id]. rewrite Hv, IH, filter_cons.
  destruct (py_eq v target) eqn:E; simpl.
  - rewrite decide_False; [done|]. unfold same_id. rewrite Hv. simpl. rewrite E. discriminate.
  - rewrite decide_True; [done|]. unfold same_id. rewrite Hv. simpl. exact E.
Qed.

(** The delete button of an activity: when every activity has an id,
    it keeps exactly the activities whose id is not [==] to the id of the
    deleted one, in their order (so every activity sharing that id goes
    too), then saves that list; no object is changed and the categories
    are untouched. *)
Theorem delete_activity_spec (activity : nat) (v : pyval) (st : session) :
  s_heap st !! activity ≫= lookup "id" = Some v ->
  Forall (fun l => is_Some (s_heap st !! l ≫= lookup "id")) (s_activities st) ->
  exists st2 ok,
    save_activities (set_activities (filter (fun l => same_id (s_heap st) v l = false)
                                            (s_activities st)) st) = (st2, ok) /\
    delete_activity activity st
      = (st2, if ok then Success "Activity deleted and saved!"
              else Failure "Activity deleted but failed to save") /\
    s_activities st2 = filter (fun l => same_id (s_heap st) v l = false) (s_activities st) /\
    s_categories st2 = s_categories st /\
    heap_extends (s_heap st) (s_heap st2).
Proof.
  intros Hv Hall.
  destruct (save_activities (set_activities (filter (fun l => same_id (s_heap st) v l = false)
                                                    (s_activities st)) st)) as [st2 ok] eqn:Hs.
  exists st2, ok. split; [done|].
  assert (Hst2 : s_activities st2 = filter (fun l => same_id (s_heap st) v l = false)
                                           (s_activities st) /\
                 s_categories st2 = s_categories st /\ heap_extends (s_heap st) (s_heap st2)).
  { destruct (save_activities_frame _ _ _ Hs) as (Hacts & Hcats & Hext & _).
    split_and!; assumption. }
  split; [|exact Hst2].
  unfold delete_activity. rewrite Hv, filter_ne_id_ok by done. by rewrite Hs.
Qed.

Lemma delete_activity_spec_witness :
  exists st2 ok,
    save_activities (set_activities (filter (fun l => same_id (s_heap sample_session)
                                                        (PStr "a1") l = false)
                                            (s_activities sample_session)) sample_session)
      = (st2, ok) /\
    delete_activity 0%nat sample_session
      = (st2, if ok then Success "Activity deleted and saved!"
              else Failure "Activity deleted but failed to save") /\
    s_activities st2 = filter (fun l => same_id (s_heap sample_session) (PStr "a1") l = false)
                              (s_activities sample_session) /\
    s_categories st2 = s_categories sample_session /\
    heap_extends (s_heap sample_session) (s_heap st2).
Proof.
  apply delete_activity_spec; [reflexivity|].
  constructor; [|constructor]. eexists. reflexivity.
Defined.

(** An activity whose id is [nan] (imported from a CSV with an empty [id]
    cell) cannot be deleted: [nan != nan] holds in Python, so the delete
    button keeps every activity, yet the list is saved and "Activity
    deleted and saved!" is shown when the save succeeds. *)
Theorem delete_activity_nan_id (activity : nat) (st : session) :
  s_heap st !! activity ≫= lookup "id" = Some PNaN ->
  Forall (fun l => is_Some (s_heap st !! l ≫= lookup "id")) (s_activities st) ->
  exists st2 (ok : bool),
    delete_activity activity st
      = (st2, if ok then Success "Activity deleted and saved!"
              else Failure "Activity deleted but failed to save") /\
    s_activities st2 = s_activities st.
Proof.
  intros Hv Hall. unfold delete_activity. rewrite Hv, filter_ne_id_ok by done.
  assert (Hf : filter (fun l => same_id (s_heap st) PNaN l = false) (s_activities st)
               = s_activities st).
  { clear Hv Hall. induction (s_activities st) as [|l ls IH]; [done|].
    rewrite filter_cons, decide_True, IH; [done|]. unfold same_id.
    destruct (s_heap st !! l ≫= lookup "id") as [[]|]; reflexivity. }
  rewrite Hf.
  destruct (save_activities (set_activities (s_activities st) st)) as [st2 ok] eqn:Hs.
  exists st2, ok. split; [done|].
  destruct (save_activities_frame _ _ _ Hs) as (Hacts & _). exact Hacts.
Qed.

Lemma delete_activity_nan_id_witness :
  exists st2 (ok : bool),
    delete_activity 0%nat nan_id_session
      = (st2, if ok then Success "Activity deleted and saved!"
              else Failure "Activity deleted but failed to save") /\
    s_activities st2 = s_activities nan_id_session.
Proof.
  apply delete_activity_nan_id.
  - vm_compute. reflexivity.
  - apply Forall_forall. intros l Hl.
    assert (Hacts : s_activities nan_id_session = [0%nat]) by (vm_compute; reflexivity).
    rewrite Hacts in Hl. apply list_elem_of_singleton in Hl as ->.
    eexists. vm_compute. reflexivity.
Defined.

(* ------------------------------------------------------------------ *)
(** ** Categories: add, recolor, and what the sequence keeps *)

Lemma save_categories_set (m : gmap string string) (st : session) :
  exists st1 ok, save_categories (set_categories m st) = (st1, ok) /\ s_categories st1 = m /\
    (s_config_io st = IoOk -> ok = true /\ s_config_file st1 = ConfigJson m) /\
    (s_config_io st <> IoOk -> ok = false).
Proof.
  destruct (save_categories_spec (set_categories m st))
    as (st1 & ok & Heq & Hc & _ & _ & Hok & Hnok).
  exists st1, ok. split_and!; assumption.
Qed.

(** A handler branch that calls [save_categories] on new categories. *)
Ltac saved_categories st :=
  lazymatch goal with
  | |- context [save_categories (set_categories ?m st)] =>
      let st1 := fresh "st1" in let ok := fresh "ok" in
      destruct (save_categories_set m st) as (st1 & ok & -> & ? & ? & ?);
      cbn [fst snd]
  end.

(** The "Add Category" form: a non-empty new name is added with its color
    and the categories are saved ("Added category" when [CONFIG_FILE] is
    written, "Failed to save category" when it cannot be); a name that is
    already a key (the empty name included, when it is one) is refused
    with "Category already exists!" and changes nothing; the empty name
    otherwise gets "Please enter a category name". In no case does the
    color of an existing category change. *)
Theorem add_category_spec (n c : string) (st : session) :
  (n <> "" -> s_categories st !! n = None ->
   exists st1 ok,
     save_categories (set_categories (<[n := c]> (s_categories st)) st) = (st1, ok) /\
     add_category n c st
     = (st1, if ok then Success ("Added category '" +:+ n +:+ "'!")
             else Failure "Failed to save category") /\
     s_categories st1 = <[n := c]> (s_categories st) /\
     (s_config_io st = IoOk ->
      ok = true /\ s_config_file st1 = ConfigJson (<[n := c]> (s_categories st)))) /\
  (is_Some (s_categories st !! n) ->
   add_category n c st = (st, Failure "Category already exists!")) /\
  (n = "" -> s_categories st !! n = None ->
   add_category n c st = (st, Failure "Please enter a category name")) /\
  (forall k c', s_categories st !! k = Some c' ->
   s_categories (fst (add_category n c st)) !! k = Some c').
Proof.
  unfold add_category. split_and!.
  - intros Hn Hnone. rewrite (bool_decide_eq_true_2 _ Hn).
    rewrite bool_decide_eq_false_2 by (rewrite Hnone; apply is_Some_None). simpl.
    destruct (save_categories_set (<[n := c]> (s_categories st)) st)
      as (st1 & ok & Heq & Hc & Hok & _).
    exists st1, ok. rewrite Heq. split_and!; done.
  - intros Hs. rewrite (bool_decide_eq_true_2 _ Hs), andb_false_r. done.
  - intros -> Hnone. rewrite (bool_decide_eq_false_2 ("" <> "")) by (intros Hne; by apply Hne).
    rewrite (bool_decide_eq_false_2 (is_Some _)) by (rewrite Hnone; apply is_Some_None).
    done.
  - intros k c' Hk.
    destruct (bool_decide (n <> "")) eqn:Hn; simpl;
      destruct (bool_decide (is_Some (s_categories st !! n))) eqn:Hs; simpl; try done.
    saved_categories st. match goal with H : s_categories _ = _ |- _ => rewrite H end.
    apply bool_decide_eq_false_1 in Hs.
    rewrite lookup_insert_ne; [done|]. intros ->. apply Hs. by eexists.
Qed.

Lemma add_category_spec_witness :
  (exists st1 ok,
     save_categories (set_categories (<["Health" := "#00FF00"]> (s_categories sample_session))
                                     sample_session) = (st1, ok) /\
     add_category "Health" "#00FF00" sample_session
     = (st1, if ok then Success ("Added category '" +:+ "Health" +:+ "'!")
             else Failure "Failed to save category") /\
     s_categories st1 = <["Health" := "#00FF00"]> (s_categories sample_session) /\
     (s_config_io sample_session = IoOk ->
      ok = true /\
      s_config_file st1 = ConfigJson (<["Health" := "#00FF00"]> (s_categories sample_session)))) /\
  add_category "Work" "#000000" sample_session
  = (sample_session, Failure "Category already exists!") /\
  add_category "" "#000000" sample_session
  = (sample_session, Failure "Please enter a category name").
Proof.
  split_and!.
  - apply (proj1 (add_category_spec "Health" "#00FF00" sample_session));
      [discriminate | reflexivity].
  - apply (proj1 (proj2 (add_category_spec "Work" "#000000" sample_session))).
    eexists. reflexivity.
  - apply (proj1 (proj2 (proj2 (add_category_spec "" "#000000" sample_session))));
      reflexivity.
Defined.

(** The color picker keeps the set of category names: only the color of
    the picked category changes, to the new color, and a change is saved:
    written to [CONFIG_FILE] when it can be, otherwise "Error saving
    categories config" is shown. *)
Theorem recolor_category_spec (n c : string) (st : session) :
  dom (s_categories (fst (recolor_category n c st))) = dom (s_categories st) /\
  (is_Some (s_categories st !! n) ->
   s_categories (fst (recolor_category n c st)) !! n = Some c) /\
  (forall k, k <> n ->
   s_categories (fst (recolor_category n c st)) !! k = s_categories st !! k) /\
  (s_categories (fst (recolor_category n c st)) <> s_categories st ->
   (s_config_io st = IoOk ->
    s_config_file (fst (recolor_category n c st))
    = ConfigJson (s_categories (fst (recolor_category n c st)))) /\
   (s_config_io st <> IoOk ->
    snd (recolor_category n c st) = Failure "Error saving categories config")).
Proof.
  unfold recolor_category.
  destruct (s_categories st !! n) as [old|] eqn:Hn.
  2: { cbn [fst]. split_and!; [done | by intros [] | done |].
       intros Hch. exfalso. by apply Hch. }
  case_bool_decide as Hne.
  - saved_categories st.
    match goal with H : s_categories _ = _ |- _ => rename H into Hc end.
    rewrite Hc. split_and!.
    + rewrite dom_insert_L. apply (anti_symm (⊆)); [|set_solver].
      intros k Hk. apply elem_of_union in Hk as [Hk|Hk]; [|done].
      apply elem_of_singleton in Hk as ->. apply elem_of_dom. by eexists.
    + intros _. by rewrite lookup_insert_eq.
    + intros k Hk. by rewrite lookup_insert_ne.
    + intros _. split.
      * intros Hio. match goal with H : _ = IoOk -> _ |- _ => by destruct (H Hio) end.
      * intros Hio. match goal with H : _ <> IoOk -> _ |- _ => by rewrite (H Hio) end.
  - cbn [fst]. split_and!; [done | | done |].
    + intros _. rewrite Hn. f_equal. destruct (decide (c = old)) as [->|]; [done|contradiction].
    + intros Hch. exfalso. by apply Hch.
Qed.

Lemma recolor_category_spec_witness :
  s_categories (fst (recolor_category "Work" "#000000" sample_session)) !! "Work"
    = Some "#000000" /\
  s_config_file (fst (recolor_category "Work" "#000000" sample_session))
    = ConfigJson (s_categories (fst (recolor_category "Work" "#000000" sample_session))).
Proof.
  split.
  - apply (proj1 (proj2 (recolor_category_spec "Work" "#000000" sample_session))).
    eexists. reflexivity.
  - apply (proj1 (proj2 (proj2 (proj2 (recolor_category_spec "Work" "#000000"
                                                              sample_session)))
                    ltac:(intros He; apply (f_equal (lookup "Work")) in He;
                          vm_compute in He; discriminate))).
    reflexivity.
Defined.

(** Every category handler that changes the categories saves them: the
    new categories are written to [CONFIG_FILE] when it can be written,
    otherwise an error is shown. And starting from what [load_categories]
    returns (the six defaults when [CONFIG_FILE] is missing or not JSON,
    else its non-empty content), no sequence of adds, recolors and
    deletes leaves the app without a category. *)
Theorem category_ops_invariants (f : config_file) (st : session) (ops : list category_op) :
  (forall st' o, s_categories (fst (run_category_op st' o)) <> s_categories st' ->
   (s_config_io st' = IoOk ->
    s_config_file (fst (run_category_op st' o)) = ConfigJson (s_categories (fst (run_category_op st' o)))) /\
   (s_config_io st' <> IoOk -> exists msg, snd (run_category_op st' o) = Failure msg)) /\
  ((forall m, f = ConfigJson m -> m <> ∅) ->
   s_categories st = fst (load_categories f) ->
   s_categories (run_category_ops st ops) <> ∅).
Proof.
  split.
  - intros st' o Hch. destruct o as [n c|n c|n]; cbn [run_category_op] in *.
    + unfold add_category in *. destruct (bool_decide (n <> "") && _).
      2: { exfalso. apply Hch. by destruct (bool_decide _). }
      saved_categories st'.
      match goal with H : s_categories _ = _ |- _ => rewrite H end.
      split; intros Hio;
        match goal with
        | H : _ = IoOk -> _ |- _ => by destruct (H Hio) as [-> ?]
        | H : _ <> IoOk -> _ |- _ => rewrite (H Hio); by eexists
        end.
    + unfold recolor_category in *. destruct (s_categories st' !! n).
      2: { exfalso. by apply Hch. }
      case_bool_decide. 2: { exfalso. by apply Hch. }
      saved_categories st'.
      match goal with H : s_categories _ = _ |- _ => rewrite H end.
      split; intros Hio;
        match goal with
        | H : _ = IoOk -> _ |- _ => by destruct (H Hio) as [-> ?]
        | H : _ <> IoOk -> _ |- _ => rewrite (H Hio); by eexists
        end.
    + unfold delete_category in *. case_bool_decide. 2: { exfalso. by apply Hch. }
      destruct (s_categories st' !! n). 2: { exfalso. by apply Hch. }
      saved_categories st'.
      match goal with H : s_categories _ = _ |- _ => rewrite H end.
      split; intros Hio;
        match goal with
        | H : _ = IoOk -> _ |- _ => by destruct (H Hio) as [-> ?]
        | H : _ <> IoOk -> _ |- _ => rewrite (H Hio); by eexists
        end.
  - intros Hf Hst.
    assert (H0 : s_categories st <> ∅).
    { rewrite Hst. destruct f as [| |m]; simpl; [| |by apply Hf].
      all: intros He; assert (Hw : default_categories !! "Work" = Some "#FF6B6B")
             by reflexivity; rewrite He in Hw; discriminate. }
    clear Hf Hst. unfold run_category_ops.
    revert st H0. induction ops as [|o ops IH]; intros st H0; simpl; [done|].
    apply IH. destruct o as [n c|n c|n]; cbn [run_category_op].
    + unfold add_category.
      destruct (bool_decide (n <> "") && _).
      * saved_categories st.
        match goal with H : s_categories _ = _ |- _ => rewrite H end.
        apply insert_non_empty.
      * destruct (bool_decide _); done.
    + unfold recolor_category. destruct (s_categories st !! n); [|done].
      case_bool_decide; [|done].
      saved_categories st.
      match goal with H : s_categories _ = _ |- _ => rewrite H end.
      apply insert_non_empty.
    + unfold delete_category. case_bool_decide as Hsz; [|done].
      destruct (s_categories st !! n) as [c|] eqn:Hc; [|done].
      saved_categories st.
      match goal with H : s_categories _ = _ |- _ => rewrite H end.
      intros He. apply (f_equal size) in He.
      rewrite map_size_delete_Some in He by (by eexists). rewrite map_size_empty in He. lia.
Qed.

Lemma category_ops_invariants_witness :
  s_config_file (fst (run_category_op sample_session (AddCategory "Health" "#00FF00")))
    = ConfigJson (s_categories (fst (run_category_op sample_session
                                       (AddCategory "Health" "#00FF00")))) /\
  s_categories (run_category_ops
                  (set_categories (fst (load_categories NoConfig)) sample_session)
                  [DeleteCategory "Work"; AddCategory "Health" "#00FF00"; Recolor "Other" "#111111"])
  <> ∅.
Proof.
  split.
  - apply (proj1 (proj1 (category_ops_invariants NoConfig sample_session []) sample_session
                    (AddCategory "Health" "#00FF00")
                    ltac:(intros He; apply (f_equal (lookup "Health")) in He;
                          vm_compute in He; discriminate))).
    reflexivity.
  - apply (proj2 (category_ops_invariants NoConfig
                  (set_categories (fst (load_categories NoConfig)) sample_session)
                  [DeleteCategory "Work"; AddCategory "Health" "#00FF00"; Recolor "Other" "#111111"]));
      [discriminate | reflexivity].
Defined.

(* ------------------------------------------------------------------ *)
(** ** The priority box of the edit form *)

(** The edit form preselects the activity's priority when it is "High",
    "Medium" or "Low"; for any other value (say one imported from a CSV,
    or [nan]) [list.index] raises ValueError and the script run stops,
    and an activity with no priority raises KeyError. *)
Theorem edit_priority_index_spec (a : pydict) :
  (forall i p, a !! "priority" = Some (PStr p) -> ["High"; "Medium"; "Low"] !! i = Some p ->
               edit_priority_index a = inr i) /\
  (forall v, a !! "priority" = Some v ->
             (forall p, v = PStr p -> p ∉ ["High"; "Medium"; "Low"]) ->
             edit_priority_index a = inl ValueError) /\
  (a !! "priority" = None -> edit_priority_index a = inl KeyError).
Proof.
  unfold edit_priority_index. split_and!.
  - intros i p Hp Hi. rewrite Hp.
    destruct i as [|[|[|i]]]; simpl in Hi; injection Hi as <- || discriminate; reflexivity.
  - intros v Hv Hnot. rewrite Hv.
    destruct v as [p| | | | | |]; try reflexivity.
    specialize (Hnot p eq_refl). simpl.
    repeat case_bool_decide; subst; try reflexivity;
      exfalso; apply Hnot; rewrite list_elem_of_In; simpl; tauto.
  - by intros ->.
Qed.

Lemma edit_priority_index_spec_witness :
  edit_priority_index sample_activity = inr 0%nat /\
  edit_priority_index (<["priority" := PStr "Urgent"]> sample_activity) = inl ValueError.
Proof.
  split.
  - apply (proj1 (edit_priority_index_spec sample_activity) 0%nat "High"); reflexivity.
  - apply (proj1 (proj2 (edit_priority_index_spec _)) (PStr "Urgent")); [reflexivity|].
    intros p [= <-]. set_solver.
Defined.

(* ------------------------------------------------------------------ *)
(** ** The calendar view *)

Lemma days_in_month_ge (y m : Z) : 28 <= days_in_month y m.
Proof.
  unfold days_in_month.
  destruct (m =? 2); [destruct (is_leap y); lia|].
  destruct (_ || _); lia.
Qed.

Lemma valid_date_bounds (d : date) :
  valid_date d = true ->
  1 <= year d <= 9999 /\ 1 <= month d <= 12 /\ 1 <= day d <= days_in_month (year d) (month d).
Proof.
  unfold valid_date, valid_ymd. intros H.
  repeat rewrite andb_true_iff in H. rewrite !Z.leb_le in H. lia.
Qed.

Ltac date_bound H :=
  match type of H with
  | valid_date ?d = true =>
      pose proof (valid_date_bounds d H);
      pose proof (days_in_month_le (year d) (month d));
      pose proof (days_in_month_ge (year d) (month d))
  end.

Lemma date_compare_key (a b : date) :
  valid_date a = true -> valid_date b = true ->
  date_compare a b = Z.compare (date_key a) (date_key b).
Proof.
  intros Ha Hb. date_bound Ha; date_bound Hb. unfold date_compare, date_key.
  destruct (Z.compare_spec (year a) (year b)).
  - destruct (Z.compare_spec (month a) (month b)).
    + symmetry. destruct (Z.compare_spec (day a) (day b)).
      * apply Z.compare_eq_iff. lia.
      * apply Z.compare_lt_iff. lia.
      * apply Z.compare_gt_iff. lia.
    + symmetry. apply Z.compare_lt_iff. lia.
    + symmetry. apply Z.compare_gt_iff. lia.
  - symmetry. apply Z.compare_lt_iff. lia.
  - symmetry. apply Z.compare_gt_iff. lia.
Qed.

Lemma date_lt_key (a b : date) :
  valid_date a = true -> valid_date b = true ->
  date_lt a b = true <-> date_key a < date_key b.
Proof.
  intros Ha Hb. unfold date_lt. rewrite date_compare_key by done.
  destruct (Z.compare_spec (date_key a) (date_key b)); split; intros; try done; lia.
Qed.

Lemma date_le_key (a b : date) :
  valid_date a = true -> valid_date b = true ->
  date_le a b = true <-> date_key a <= date_key b.
Proof.
  intros Ha Hb. unfold date_le.
  rewrite negb_true_iff, <- not_true_iff_false, (date_lt_key b a Hb Ha).
  split; intros; lia.
Qed.

Lemma date_key_inj (a b : date) :
  valid_date a = true -> valid_date b = true -> date_key a = date_key b -> a = b.
Proof.
  intros Ha Hb Hk. destruct a as [ya ma da], b as [yb mb db]. date_bound Ha; date_bound Hb.
  unfold date_key in Hk; simpl in *.
  assert (ya = yb) as -> by lia. assert (ma = mb) as -> by lia. assert (da = db) as -> by lia.
  done.
Qed.

Lemma date_key_max (d : date) : valid_date d = true -> date_key d <= date_key date_max.
Proof. intros Hd. date_bound Hd. unfold date_key, date_max; simpl. lia. Qed.

Lemma valid_date_max : valid_date date_max = true.
Proof. reflexivity. Qed.

Lemma next_day_none (d : date) : valid_date d = true -> next_day d = None -> d = date_max.
Proof.
  intros Hd Hn. date_bound Hd. unfold next_day in Hn.
  destruct (Z.ltb_spec (day d) (days_in_month (year d) (month d))); [done|].
  destruct (Z.ltb_spec (month d) 12); [done|].
  destruct (Z.ltb_spec (year d) 9999); [done|].
  apply date_key_inj; [done|reflexivity|]. unfold date_key, date_max; simpl.
  assert (month d = 12) as Hm by lia. rewrite Hm in *. simpl in *.
  assert (days_in_month (year d) 12 = 31) by reflexivity. lia.
Qed.

Lemma next_day_some (d nx : date) :
  valid_date d = true -> next_day d = Some nx ->
  valid_date nx = true /\ date_key d < date_key nx /\
  forall x, valid_date x = true -> date_key d < date_key x -> date_key nx <= date_key x.
Proof.
  intros Hd Hn. date_bound Hd. unfold next_day in Hn.
  destruct (Z.ltb_spec (day d) (days_in_month (year d) (month d))).
  { injection Hn as <-. unfold valid_date, valid_ymd, date_key; simpl.
    split_and!; [|lia|intros; lia].
    repeat (apply andb_true_iff; split); apply Z.leb_le; lia. }
  destruct (Z.ltb_spec (month d) 12).
  { injection Hn as <-. unfold valid_date, valid_ymd, date_key; simpl.
    pose proof (days_in_month_ge (year d) (month d + 1)).
    split_and!; [|lia|].
    - repeat (apply andb_true_iff; split); apply Z.leb_le; lia.
    - intros x Hx Hlt. change (valid_date x = true) in Hx. date_bound Hx.
      destruct (Z.eq_dec (year x) (year d)); [|lia].
      destruct (Z.eq_dec (month x) (month d)); [|lia].
      rewrite e, e0 in *. lia. }
  destruct (Z.ltb_spec (year d) 9999); [|done].
  injection Hn as <-. unfold valid_date, valid_ymd, date_key; simpl.
  split_and!; [|lia|].
  - pose proof (days_in_month_ge (year d + 1) 1).
    repeat (apply andb_true_iff; split); apply Z.leb_le; lia.
  - intros x Hx Hlt. change (valid_date x = true) in Hx. date_bound Hx.
    destruct (Z.eq_dec (year x) (year d)); [|lia].
    destruct (Z.eq_dec (month x) (month d)); [|lia].
    rewrite e, e0 in *. lia.
Qed.

Lemma calendar_loop_done (fuel : nat) (cur en : date) :
  valid_date cur = true -> valid_date en = true -> en <> date_max ->
  (1 <= fuel)%nat -> (date_key cur <= date_key en -> date_key en - date_key cur + 2 <= Z.of_nat fuel) ->
  exists ds, calendar_loop fuel cur en = LoopDone ds /\
    StronglySorted (fun a b => date_lt a b = true) ds /\
    forall x, x ∈ ds <-> valid_date x = true /\ date_key cur <= date_key x <= date_key en.
Proof.
  intros Hcur Hen Hmax. revert cur Hcur.
  assert (Hlt : date_key en < date_key date_max).
  { pose proof (date_key_max en Hen).
    destruct (Z.eq_dec (date_key en) (date_key date_max)); [|lia].
    exfalso. apply Hmax, date_key_inj; [done|reflexivity|done]. }
  induction fuel as [|f IH]; intros cur Hcur Hf Hfuel; [lia|].
  cbn [calendar_loop].
  destruct (date_le cur en) eqn:Hle.
  - apply date_le_key in Hle; [|done|done].
    destruct (next_day cur) as [nx|] eqn:Hnx.
    2:{ apply next_day_none in Hnx; [|done]. subst cur. lia. }
    destruct (next_day_some cur nx Hcur Hnx) as (Hvnx & Hk & Hgap).
    destruct (IH nx Hvnx) as (ds & Hds & Hsort & Hmem); [lia|intros; lia|].
    rewrite Hds. exists (cur :: ds). split_and!; [done| |].
    + constructor; [done|]. apply Forall_forall. intros x Hx.
      apply Hmem in Hx as [Hvx Hx].
      apply date_lt_key; [done|done|lia].
    + intros x. rewrite elem_of_cons, Hmem. split.
      * intros [->|[Hvx Hx]]; [split; [done|lia]|split; [done|lia]].
      * intros [Hvx Hx]. destruct (Z.eq_dec (date_key x) (date_key cur)) as [He|He].
        -- left. by apply date_key_inj.
        -- right. split; [done|]. specialize (Hgap x Hvx). lia.
  - exists []. split_and!; [done|constructor|].
    intros x. rewrite elem_of_nil. split; [done|].
    intros [Hvx Hx]. assert (date_le cur en = true); [|congruence].
    apply date_le_key; [done|done|lia].
Qed.

Lemma calendar_loop_overflow (fuel : nat) (cur : date) :
  valid_date cur = true -> date_key date_max - date_key cur + 2 <= Z.of_nat fuel ->
  calendar_loop fuel cur date_max = LoopOverflow.
Proof.
  revert cur. induction fuel as [|f IH]; intros cur Hcur Hfuel.
  { pose proof (date_key_max cur Hcur). lia. }
  cbn [calendar_loop].
  rewrite (proj2 (date_le_key cur date_max Hcur valid_date_max)) by (by apply date_key_max).
  destruct (next_day cur) as [nx|] eqn:Hnx; [|done].
  destruct (next_day_some cur nx Hcur Hnx) as (Hvnx & Hk & _).
  rewrite IH; [done|done|]. pose proof (date_key_max nx Hvnx). lia.
Qed.

(** The calendar view lists, for an activity with valid dates that ends
    before [date.max], every valid day from its start date to its end
    date, each once and in increasing order; when the start date is after
    the end date it lists none. *)
Theorem calendar_dates_spec (start_date end_date : date) :
  valid_date start_date = true -> valid_date end_date = true -> end_date <> date_max ->
  exists ds, calendar_dates start_date end_date = LoopDone ds /\
    StronglySorted (fun a b => date_lt a b = true) ds /\
    forall x, x ∈ ds <-> valid_date x = true /\ date_le start_date x = true /\ date_le x end_date = true.
Proof.
  intros Hs He Hmax. unfold calendar_dates.
  destruct (calendar_loop_done (Z.to_nat (date_key end_date - date_key start_date) + 2)
              start_date end_date Hs He Hmax) as (ds & Hds & Hsort & Hmem); [lia|lia|].
  exists ds. split_and!; [done|done|]. intros x. rewrite Hmem. split.
  - intros [Hx Hk]. rewrite !date_le_key by done. split_and!; [done|lia|lia].
  - intros (Hx & H1 & H2). rewrite date_le_key in H1, H2 by done. split; [done|lia].
Qed.

Lemma calendar_dates_spec_witness :
  calendar_dates (mkDate 2024 2 27) (mkDate 2024 3 2)
  = LoopDone [mkDate 2024 2 27; mkDate 2024 2 28; mkDate 2024 2 29; mkDate 2024 3 1; mkDate 2024 3 2] /\
  exists ds, calendar_dates (mkDate 2024 2 27) (mkDate 2024 3 2) = LoopDone ds /\
    StronglySorted (fun a b => date_lt a b = true) ds /\
    forall x, x ∈ ds <-> valid_date x = true /\ date_le (mkDate 2024 2 27) x = true
                         /\ date_le x (mkDate 2024 3 2) = true.
Proof.
  split; [reflexivity|].
  apply calendar_dates_spec; [reflexivity|reflexivity|discriminate].
Defined.

(** An activity that ends on 9999-12-31 (and starts on a valid date)
    makes the calendar view raise OverflowError: the loop reaches
    [date.max] and adds one day to it. *)
Theorem calendar_dates_overflow (start_date : date) :
  valid_date start_date = true -> calendar_dates start_date date_max = LoopOverflow.
Proof.
  intros Hs. unfold calendar_dates. apply calendar_loop_overflow; [done|lia].
Qed.

Lemma calendar_dates_overflow_witness :
  calendar_dates (mkDate 9999 12 30) date_max = LoopOverflow.
Proof. apply calendar_dates_overflow. reflexivity. Defined.

(* ------------------------------------------------------------------ *)
(** ** A record that cannot be written *)

Lemma save_one_fail (h : heap) (l : nat) (a : pydict) (e : py_exn) :
  h !! l = Some a -> serialize_activity a = inl e ->
  exists h1, save_one h l = (h1, inl e).
Proof.
  intros Hl Hs. unfold save_one. rewrite Hl.
  destruct (alloc h a) as [h1 c]. unfold serialize_activity in Hs.
  destruct (strftime_field strftime_date a "start_date"); [injection Hs as ->; by eexists|].
  destruct (strftime_field strftime_date a "end_date"); [injection Hs as ->; by eexists|].
  destruct (strftime_field strftime_datetime a "created_at"); [injection Hs as ->; by eexists|].
  done.
Qed.

Lemma save_loop_fail (ls : list nat) (h : heap) (l : nat) (a : pydict) (e : py_exn) :
  l ∈ ls -> h !! l = Some a -> serialize_activity a = inl e ->
  exists h' e', save_loop h ls = (h', inl e').
Proof.
  revert h. induction ls as [|l0 ls IH]; intros h Hin Hl Hs; [by apply elem_of_nil in Hin|].
  cbn [save_loop].
  destruct (save_one h l0) as [h1 [e1|c]] eqn:H1; [by eexists _, _|].
  apply elem_of_cons in Hin as [->|Hin].
  { destruct (save_one_fail h _ a e Hl Hs) as [h1' Hf]. congruence. }
  destruct (IH h1 Hin) as (h' & e' & Hloop); [by eapply save_one_extends, Hl | done |].
  rewrite Hloop. by eexists _, _.
Qed.

(** One activity of the collection whose dates cannot be formatted (a
    NaT from a CSV import, a missing field, a value that is not a date)
    makes [save_activities] return [False]: [DATA_FILE] keeps its old
    content, whatever else the collection holds. *)
Theorem save_activities_fails (st : session) (l : nat) (a : pydict) (e : py_exn) :
  l ∈ s_activities st -> s_heap st !! l = Some a -> serialize_activity a = inl e ->
  exists h', save_activities st = (set_heap h' st, false).
Proof.
  intros Hin Hl Hs. destruct (save_loop_fail _ _ l a e Hin Hl Hs) as (h' & e' & Hloop).
  exists h'. unfold save_activities. by rewrite Hloop.
Qed.

Lemma save_activities_fails_witness :
  exists h', save_activities nat_end_session = (set_heap h' nat_end_session, false).
Proof.
  apply (save_activities_fails nat_end_session 1%nat
           (default ∅ (s_heap nat_end_session !! 1%nat)) ValueError);
    [vm_compute; by repeat constructor | vm_compute; reflexivity | vm_compute; reflexivity].
Defined.
